(** * Binding shims of futures_quant_framework: ctp_pybind, nsq_pybind, exanic_pybind

    A shallow embedding of the three pybind11 shims under [src/extern_libs].
    The vendor SDKs (CTP, NSQ, ExaNIC) are closed libraries: every entry point
    the shims call is an event of a signature, answered by an oracle, and the
    calls a shim makes are recorded in a trace.  What is proved is what the
    shims do around those calls. *)

From Stdlib Require Import List ZArith Lia Bool Ascii String PrimFloat.
Import ListNotations.

Local Open Scope Z_scope.

(* ================================================================= *)
(** ** C data: integers, pointers, character arrays *)

Module C.

(** [size_t] is 64 bits wide and [int] 32 bits; the conversions wrap. *)
Definition SIZE_WIDTH : Z := 64.
Definition to_size_t (z : Z) : Z := z mod 2 ^ SIZE_WIDTH.
Definition to_int (z : Z) : Z := (z + 2 ^ 31) mod 2 ^ 32 - 2 ^ 31.

(** An address; [nullptr] is address 0 and [if (p)] tests [p != nullptr]. *)
Definition ptr : Type := Z.
Definition nullptr : ptr := 0.
Definition non_null (p : ptr) : bool := negb (p =? nullptr).

Definition char : Type := ascii.
Definition NUL : char := Ascii.zero.
Definition is_nul (c : char) : bool := Ascii.eqb c NUL.

(** [std::string]: a counted sequence of chars (it may hold NUL chars). *)
Definition std_string : Type := list char.

(** [v.c_str()]: the chars of [v] followed by the terminating NUL. *)
Definition c_str (v : std_string) : list char := v ++ [NUL].

(** The chars a reader of a [const char*] sees: those before the first NUL. *)
Fixpoint until_nul (mem : list char) : list char :=
  match mem with
  | [] => []
  | c :: rest => if is_nul c then [] else c :: until_nul rest
  end.

(** [std::string(const char* p)] on the array [mem] that [p] points into:
    the chars before the first NUL; [None] when the array holds no NUL (the
    read runs past the end of the array). *)
Fixpoint string_of_cstr (mem : list char) : option std_string :=
  match mem with
  | [] => None
  | c :: rest =>
      if is_nul c then Some []
      else match string_of_cstr rest with
           | Some s => Some (c :: s)
           | None => None
           end
  end.

(** [memset(dest, c, n)]. *)
Definition memset (dest : list char) (c : char) (n : Z) : list char :=
  repeat c (Z.to_nat n) ++ skipn (Z.to_nat n) dest.

(** The [n] chars [strncpy] writes: the chars of the C string at [src] while
    there are any and room is left, then NUL up to [n] chars. *)
Fixpoint strncpy_chars (src : list char) (n : nat) {struct n} : list char :=
  match n with
  | O => []
  | S k =>
      match src with
      | [] => repeat NUL (S k)
      | c :: rest =>
          if is_nul c then repeat NUL (S k) else c :: strncpy_chars rest k
      end
  end.

(** [strncpy(dest, src, n)]. *)
Definition strncpy (dest src : list char) (n : Z) : list char :=
  strncpy_chars src (Z.to_nat n) ++ skipn (Z.to_nat n) dest.

(** A char array whose last element is NUL. *)
Definition nul_terminated (arr : list char) : Prop :=
  nth_error arr (List.length arr - 1)%nat = Some NUL.

End C.

(* ================================================================= *)
(** ** Calls into a vendor SDK

    [E R] is the signature of an SDK: its entry points with their arguments,
    indexed by the type of what they return.  A computation [M E St A] runs
    over an object state [St] (the members of [this], or the interpreter's
    objects), asks the SDK through [call], and appends each call to the trace.
    The SDK's answer may depend on everything it was asked before. *)

Module Eff.

Inductive event (E : Type -> Type) : Type :=
| Called (R : Type) (e : E R).
Arguments Called {E R} e.

Definition oracle (E : Type -> Type) : Type :=
  list (event E) -> forall R, E R -> R.

Definition M (E : Type -> Type) (St A : Type) : Type :=
  oracle E -> St -> list (event E) -> A * St * list (event E).

Section Ops.
Context {E : Type -> Type} {St : Type}.

Definition ret {A} (a : A) : M E St A := fun _ s t => (a, s, t).

Definition bind {A B} (m : M E St A) (k : A -> M E St B) : M E St B :=
  fun sdk s t => let '(a, s', t') := m sdk s t in k a sdk s' t'.

Definition get : M E St St := fun _ s t => (s, s, t).

Definition put (s : St) : M E St unit := fun _ _ t => (tt, s, t).

Definition call {R} (e : E R) : M E St R :=
  fun sdk s t => (sdk t R e, s, t ++ [Called e]).

(** Projections of a run. *)
Definition result {A} (r : A * St * list (event E)) : A := fst (fst r).
Definition state {A} (r : A * St * list (event E)) : St := snd (fst r).
Definition trace {A} (r : A * St * list (event E)) : list (event E) := snd r.

End Ops.

Declare Scope eff_scope.
Delimit Scope eff_scope with eff.
Notation "x <- m ;; k" := (bind m (fun x => k))
  (at level 61, m at next level, right associativity) : eff_scope.
Notation "m ;; k" := (bind m (fun _ => k))
  (at level 61, right associativity) : eff_scope.

End Eff.

(* ================================================================= *)
(** ** Values the bindings hand back, and pybind11's trampoline macro *)

Module Bind.
Import C Eff.
Local Open Scope eff_scope.

(** A scalar member of a vendor record: the vendor headers are not part of
    the repository, so a member is an integer or a double, whichever the
    header declares. *)
Inductive scalar : Type :=
| SInt (z : Z)
| SDouble (d : float).

(** What a bound accessor returns on the C++ side. *)
Inductive value : Type :=
| VScalar (s : scalar)
| VString (s : std_string)
| VVector (v : list float).

(** A member of a vendor record, as the header lays it out. *)
Inductive member : Type :=
| MScalar (s : scalar)
| MChars (arr : list char)
| MArray (arr : list scalar).

(** A getter runs on the record and leaves a record behind; [None] is a read
    outside the member (no defined result). *)
Definition getter (T : Type) : Type := T -> option value * T.

(** [.def_readonly(name, &T::m)]: a copy of the scalar member. *)
Definition def_readonly {T} (m : T -> scalar) : getter T :=
  fun f => (Some (VScalar (m f)), f).

(** [.def_property_readonly(name, [](const T &f) { ... })]: the lambda takes
    the record by const reference. *)
Definition def_property_readonly {T} (lambda : T -> option value) : getter T :=
  fun f => (lambda f, f).

(** The getter half of [.def_property(name, getter, setter)]. *)
Definition def_property_getter {T} (lambda : T -> option value) : getter T :=
  fun f => (lambda f, f).

(** [return std::string(f.m);] *)
Definition return_string (arr : list char) : option value :=
  match string_of_cstr arr with
  | Some s => Some (VString s)
  | None => None
  end.

(** What a wrapper method returns, and the C++ return types there are. *)
Inductive ret_val : Type :=
| RVoid
| RInt (z : Z)
| RString (s : std_string).

Inductive ctype : Type := TVoid | TInt | TString.

(** Arguments of a callback. *)
Inductive arg : Type :=
| AInt (z : Z)
| ABool (b : bool)
| APtr (p : ptr).

(** The two places a trampoline can send a callback to. *)
Inductive SpiE : Type -> Type :=
| Override (fn : string) (args : list arg) : SpiE unit
| Base (fn : string) (args : list arg) : SpiE unit.

(** The callback object registered from the script: the methods its class
    defines.  [get_override] finds a method by name. *)
Record py_self : Type := { py_methods : list string }.

Definition get_override (self : py_self) (fn : string) : bool :=
  existsb (String.eqb fn) (py_methods self).

(** [PYBIND11_OVERLOAD(void, Base, fn, args...)]: one token [fn] names both
    the override looked up and the base method. *)
Definition PYBIND11_OVERLOAD (fn : string) (args : list arg)
  : M SpiE py_self unit :=
  self <- get ;;
  if get_override self fn then call (Override fn args)
  else call (Base fn args).

End Bind.

(* ================================================================= *)
(** ** ctp_pybind.cpp *)

Module Ctp.
Import C Eff Bind.
Local Open Scope eff_scope.

(** *** Vendor records (the members the bindings touch) *)

Module CThostFtdcRspInfoField.
Record t : Type := { ErrorID : scalar; ErrorMsg : list char }.
End CThostFtdcRspInfoField.

Module CThostFtdcRspUserLoginField.
Record t : Type := {
  TradingDay : list char; LoginTime : list char; BrokerID : list char;
  UserID : list char; FrontID : scalar; SessionID : scalar }.
End CThostFtdcRspUserLoginField.

Module CThostFtdcReqUserLoginField.
Record t : Type := {
  BrokerID : list char; UserID : list char; Password : list char }.
End CThostFtdcReqUserLoginField.

Module CThostFtdcDepthMarketDataField.
Record t : Type := {
  TradingDay : list char; InstrumentID : list char; ExchangeID : list char;
  LastPrice : scalar; PreSettlementPrice : scalar; PreClosePrice : scalar;
  PreOpenInterest : scalar; OpenPrice : scalar; HighestPrice : scalar;
  LowestPrice : scalar; Volume : scalar; Turnover : scalar;
  OpenInterest : scalar; ClosePrice : scalar; SettlementPrice : scalar;
  UpperLimitPrice : scalar; LowerLimitPrice : scalar;
  UpdateTime : list char; UpdateMillisec : scalar;
  BidPrice1 : scalar; BidVolume1 : scalar; AskPrice1 : scalar;
  AskVolume1 : scalar; AveragePrice : scalar; ActionDay : list char }.
End CThostFtdcDepthMarketDataField.

Module CThostFtdcSpecificInstrumentField.
Record t : Type := { InstrumentID : list char }.
End CThostFtdcSpecificInstrumentField.

(** [sizeof(f.m)] of a char array member. *)
Definition sizeof (arr : list char) : Z := Z.of_nat (List.length arr).

(** *** The trampoline [PyMdSpi] *)

Module PyMdSpi.

Definition OnFrontConnected : M SpiE py_self unit :=
  PYBIND11_OVERLOAD "OnFrontConnected" [].

Definition OnFrontDisconnected (nReason : Z) : M SpiE py_self unit :=
  PYBIND11_OVERLOAD "OnFrontDisconnected" [AInt nReason].

Definition OnRspUserLogin (pRspUserLogin pRspInfo : ptr) (nRequestID : Z)
    (bIsLast : bool) : M SpiE py_self unit :=
  PYBIND11_OVERLOAD "OnRspUserLogin"
    [APtr pRspUserLogin; APtr pRspInfo; AInt nRequestID; ABool bIsLast].

Definition OnRtnDepthMarketData (pDepthMarketData : ptr)
  : M SpiE py_self unit :=
  PYBIND11_OVERLOAD "OnRtnDepthMarketData" [APtr pDepthMarketData].

Definition OnRspSubMarketData (pSpecificInstrument pRspInfo : ptr)
    (nRequestID : Z) (bIsLast : bool) : M SpiE py_self unit :=
  PYBIND11_OVERLOAD "OnRspSubMarketData"
    [APtr pSpecificInstrument; APtr pRspInfo; AInt nRequestID; ABool bIsLast].

Definition OnRspError (pRspInfo : ptr) (nRequestID : Z) (bIsLast : bool)
  : M SpiE py_self unit :=
  PYBIND11_OVERLOAD "OnRspError" [APtr pRspInfo; AInt nRequestID; ABool bIsLast].

End PyMdSpi.

(** *** The entry points of [CThostFtdcMdApi] the wrapper calls *)

Module Sdk.
Inductive MdApiE : Type -> Type :=
| CreateFtdcMdApi (pszFlowPath : list char) : MdApiE ptr
| Release (api : ptr) : MdApiE unit
| RegisterSpi (api : ptr) (pSpi : ptr) : MdApiE unit
| RegisterFront (api : ptr) (pszFrontAddress : list char) : MdApiE unit
| Init (api : ptr) : MdApiE unit
| Join (api : ptr) : MdApiE Z
| ReqUserLogin (api : ptr) (pReqUserLoginField : ptr) (nRequestID : Z)
  : MdApiE Z
| SubscribeMarketData (api : ptr) (ppInstrumentID : list (list char))
    (nCount : Z) : MdApiE Z
| GetApiVersion : MdApiE (list char).
End Sdk.

(** *** The wrapper [PyMdApi] *)

Module PyMdApi.

Record t : Type := { api : ptr }.

Definition Me (A : Type) : Type := M Sdk.MdApiE t A.

(** [PyMdApi(const std::string &flow_path)] *)
Definition ctor (flow_path : std_string) : M Sdk.MdApiE unit t :=
  p <- call (Sdk.CreateFtdcMdApi (c_str flow_path)) ;;
  ret {| api := p |}.

(** [~PyMdApi()] *)
Definition dtor : Me unit :=
  this <- get ;;
  if non_null (api this) then
    call (Sdk.Release (api this)) ;;
    put {| api := nullptr |}
  else ret tt.

Definition RegisterSpi (spi : ptr) : Me unit :=
  this <- get ;;
  if non_null (api this) then call (Sdk.RegisterSpi (api this) spi)
  else ret tt.

Definition RegisterFront (pszFrontAddress : list char) : Me unit :=
  this <- get ;;
  if non_null (api this) then
    call (Sdk.RegisterFront (api this) pszFrontAddress)
  else ret tt.

Definition Init : Me unit :=
  this <- get ;;
  if non_null (api this) then call (Sdk.Init (api this)) else ret tt.

Definition Join : Me Z :=
  this <- get ;;
  if non_null (api this) then call (Sdk.Join (api this)) else ret (-1).

Definition ReqUserLogin (pReqUserLoginField : ptr) (nRequestID : Z) : Me Z :=
  this <- get ;;
  if non_null (api this) then
    call (Sdk.ReqUserLogin (api this) pReqUserLoginField nRequestID)
  else ret (-1).

Definition SubscribeMarketData (symbols : list std_string) : Me Z :=
  this <- get ;;
  if negb (non_null (api this)) then ret (-1)
  else
    let p_symbols :=
      fold_left (fun p s => p ++ [c_str s]) symbols [] in
    call (Sdk.SubscribeMarketData (api this) p_symbols
            (to_int (Z.of_nat (List.length p_symbols)))).

Definition GetApiVersion : Me (list char) :=
  call Sdk.GetApiVersion.

End PyMdApi.

(** *** Bindings of [CThostFtdcReqUserLoginField]: the property setters *)

Module ReqUserLoginBinding.
Import CThostFtdcReqUserLoginField.

Definition get_BrokerID (f : t) : option value := return_string (BrokerID f).
Definition set_BrokerID (f : t) (v : std_string) : t :=
  {| BrokerID := strncpy (BrokerID f) (c_str v) (sizeof (BrokerID f));
     UserID := UserID f; Password := Password f |}.

Definition get_UserID (f : t) : option value := return_string (UserID f).
Definition set_UserID (f : t) (v : std_string) : t :=
  {| BrokerID := BrokerID f;
     UserID := strncpy (UserID f) (c_str v) (sizeof (UserID f));
     Password := Password f |}.

Definition get_Password (f : t) : option value := return_string (Password f).
Definition set_Password (f : t) (v : std_string) : t :=
  {| BrokerID := BrokerID f; UserID := UserID f;
     Password := strncpy (Password f) (c_str v) (sizeof (Password f)) |}.

End ReqUserLoginBinding.

(** *** The read accessors: [members] is the record by member name, as the
    header declares it; [bindings] is the table the module definition
    registers, name by name. *)

Module RspInfoBinding.
Import CThostFtdcRspInfoField.

Definition members (f : t) : list (string * member) :=
  [("ErrorID"%string, MScalar (ErrorID f));
   ("ErrorMsg"%string, MChars (ErrorMsg f))].

Definition bindings : list (string * getter t) :=
  [("ErrorID"%string, def_readonly ErrorID);
   ("ErrorMsg"%string,
    def_property_readonly (fun f => return_string (ErrorMsg f)))].

End RspInfoBinding.

Module RspUserLoginBinding.
Import CThostFtdcRspUserLoginField.

Definition members (f : t) : list (string * member) :=
  [("TradingDay"%string, MChars (TradingDay f));
   ("LoginTime"%string, MChars (LoginTime f));
   ("BrokerID"%string, MChars (BrokerID f));
   ("UserID"%string, MChars (UserID f));
   ("FrontID"%string, MScalar (FrontID f));
   ("SessionID"%string, MScalar (SessionID f))].

Definition bindings : list (string * getter t) :=
  [("TradingDay"%string,
    def_property_readonly (fun f => return_string (TradingDay f)));
   ("LoginTime"%string,
    def_property_readonly (fun f => return_string (LoginTime f)));
   ("BrokerID"%string,
    def_property_readonly (fun f => return_string (BrokerID f)));
   ("UserID"%string,
    def_property_readonly (fun f => return_string (UserID f)));
   ("FrontID"%string, def_readonly FrontID);
   ("SessionID"%string, def_readonly SessionID)].

End RspUserLoginBinding.

Module ReqUserLoginGetters.
Import CThostFtdcReqUserLoginField ReqUserLoginBinding.

Definition members (f : t) : list (string * member) :=
  [("BrokerID"%string, MChars (BrokerID f));
   ("UserID"%string, MChars (UserID f));
   ("Password"%string, MChars (Password f))].

Definition bindings : list (string * getter t) :=
  [("BrokerID"%string, def_property_getter get_BrokerID);
   ("UserID"%string, def_property_getter get_UserID);
   ("Password"%string, def_property_getter get_Password)].

End ReqUserLoginGetters.

Module DepthMarketDataBinding.
Import CThostFtdcDepthMarketDataField.

Definition members (f : t) : list (string * member) :=
  [("TradingDay"%string, MChars (TradingDay f));
   ("InstrumentID"%string, MChars (InstrumentID f));
   ("ExchangeID"%string, MChars (ExchangeID f));
   ("LastPrice"%string, MScalar (LastPrice f));
   ("PreSettlementPrice"%string, MScalar (PreSettlementPrice f));
   ("PreClosePrice"%string, MScalar (PreClosePrice f));
   ("PreOpenInterest"%string, MScalar (PreOpenInterest f));
   ("OpenPrice"%string, MScalar (OpenPrice f));
   ("HighestPrice"%string, MScalar (HighestPrice f));
   ("LowestPrice"%string, MScalar (LowestPrice f));
   ("Volume"%string, MScalar (Volume f));
   ("Turnover"%string, MScalar (Turnover f));
   ("OpenInterest"%string, MScalar (OpenInterest f));
   ("ClosePrice"%string, MScalar (ClosePrice f));
   ("SettlementPrice"%string, MScalar (SettlementPrice f));
   ("UpperLimitPrice"%string, MScalar (UpperLimitPrice f));
   ("LowerLimitPrice"%string, MScalar (LowerLimitPrice f));
   ("UpdateTime"%string, MChars (UpdateTime f));
   ("UpdateMillisec"%string, MScalar (UpdateMillisec f));
   ("BidPrice1"%string, MScalar (BidPrice1 f));
   ("BidVolume1"%string, MScalar (BidVolume1 f));
   ("AskPrice1"%string, MScalar (AskPrice1 f));
   ("AskVolume1"%string, MScalar (AskVolume1 f));
   ("AveragePrice"%string, MScalar (AveragePrice f));
   ("ActionDay"%string, MChars (ActionDay f))].

Definition bindings : list (string * getter t) :=
  [("TradingDay"%string,
    def_property_readonly (fun f => return_string (TradingDay f)));
   ("InstrumentID"%string,
    def_property_readonly (fun f => return_string (InstrumentID f)));
   ("ExchangeID"%string,
    def_property_readonly (fun f => return_string (ExchangeID f)));
   ("LastPrice"%string, def_readonly LastPrice);
   ("PreSettlementPrice"%string, def_readonly PreSettlementPrice);
   ("PreClosePrice"%string, def_readonly PreClosePrice);
   ("PreOpenInterest"%string, def_readonly PreOpenInterest);
   ("OpenPrice"%string, def_readonly OpenPrice);
   ("HighestPrice"%string, def_readonly HighestPrice);
   ("LowestPrice"%string, def_readonly LowestPrice);
   ("Volume"%string, def_readonly Volume);
   ("Turnover"%string, def_readonly Turnover);
   ("OpenInterest"%string, def_readonly OpenInterest);
   ("ClosePrice"%string, def_readonly ClosePrice);
   ("SettlementPrice"%string, def_readonly SettlementPrice);
   ("UpperLimitPrice"%string, def_readonly UpperLimitPrice);
   ("LowerLimitPrice"%string, def_readonly LowerLimitPrice);
   ("UpdateTime"%string,
    def_property_readonly (fun f => return_string (UpdateTime f)));
   ("UpdateMillisec"%string, def_readonly UpdateMillisec);
   ("BidPrice1"%string, def_readonly BidPrice1);
   ("BidVolume1"%string, def_readonly BidVolume1);
   ("AskPrice1"%string, def_readonly AskPrice1);
   ("AskVolume1"%string, def_readonly AskVolume1);
   ("AveragePrice"%string, def_readonly AveragePrice);
   ("ActionDay"%string,
    def_property_readonly (fun f => return_string (ActionDay f)))].

End DepthMarketDataBinding.

Module SpecificInstrumentBinding.
Import CThostFtdcSpecificInstrumentField.

Definition members (f : t) : list (string * member) :=
  [("InstrumentID"%string, MChars (InstrumentID f))].

Definition bindings : list (string * getter t) :=
  [("InstrumentID"%string,
    def_property_readonly (fun f => return_string (InstrumentID f)))].

End SpecificInstrumentBinding.

(** *** The virtual methods of [CThostFtdcMdSpi] that [PyMdSpi] overrides:
    the SDK calls one of them with its arguments. *)

Module Callback.

Inductive t : Type :=
| OnFrontConnected
| OnFrontDisconnected (nReason : Z)
| OnRspUserLogin (pRspUserLogin pRspInfo : ptr) (nRequestID : Z)
    (bIsLast : bool)
| OnRtnDepthMarketData (pDepthMarketData : ptr)
| OnRspSubMarketData (pSpecificInstrument pRspInfo : ptr) (nRequestID : Z)
    (bIsLast : bool)
| OnRspError (pRspInfo : ptr) (nRequestID : Z) (bIsLast : bool).

(** Virtual dispatch on a [PyMdSpi] object. *)
Definition fire (cb : t) : M SpiE py_self unit :=
  match cb with
  | OnFrontConnected => PyMdSpi.OnFrontConnected
  | OnFrontDisconnected r => PyMdSpi.OnFrontDisconnected r
  | OnRspUserLogin a b c d => PyMdSpi.OnRspUserLogin a b c d
  | OnRtnDepthMarketData a => PyMdSpi.OnRtnDepthMarketData a
  | OnRspSubMarketData a b c d => PyMdSpi.OnRspSubMarketData a b c d
  | OnRspError a b c => PyMdSpi.OnRspError a b c
  end.

(** The method's name and the arguments the SDK passed, in order. *)
Definition name (cb : t) : string :=
  match cb with
  | OnFrontConnected => "OnFrontConnected"
  | OnFrontDisconnected _ => "OnFrontDisconnected"
  | OnRspUserLogin _ _ _ _ => "OnRspUserLogin"
  | OnRtnDepthMarketData _ => "OnRtnDepthMarketData"
  | OnRspSubMarketData _ _ _ _ => "OnRspSubMarketData"
  | OnRspError _ _ _ => "OnRspError"
  end.

Definition args (cb : t) : list arg :=
  match cb with
  | OnFrontConnected => []
  | OnFrontDisconnected r => [AInt r]
  | OnRspUserLogin a b c d => [APtr a; APtr b; AInt c; ABool d]
  | OnRtnDepthMarketData a => [APtr a]
  | OnRspSubMarketData a b c d => [APtr a; APtr b; AInt c; ABool d]
  | OnRspError a b c => [APtr a; AInt b; ABool c]
  end.

End Callback.

(** *** The session methods of [PyMdApi]: those that work on the handle *)

Module Session.

Inductive method : Type :=
| RegisterSpi (spi : ptr)
| RegisterFront (pszFrontAddress : list char)
| Init
| Join
| ReqUserLogin (pReqUserLoginField : ptr) (nRequestID : Z)
| SubscribeMarketData (symbols : list std_string).

Definition return_type (m : method) : ctype :=
  match m with
  | RegisterSpi _ | RegisterFront _ | Init => TVoid
  | Join | ReqUserLogin _ _ | SubscribeMarketData _ => TInt
  end.

Definition invoke (m : method) : PyMdApi.Me ret_val :=
  match m with
  | RegisterSpi spi => _ <- PyMdApi.RegisterSpi spi ;; ret RVoid
  | RegisterFront a => _ <- PyMdApi.RegisterFront a ;; ret RVoid
  | Init => _ <- PyMdApi.Init ;; ret RVoid
  | Join => r <- PyMdApi.Join ;; ret (RInt r)
  | ReqUserLogin req id => r <- PyMdApi.ReqUserLogin req id ;; ret (RInt r)
  | SubscribeMarketData l => r <- PyMdApi.SubscribeMarketData l ;; ret (RInt r)
  end.

(** The handle an SDK call is made on ([None]: a static function). *)
Definition target {R} (e : Sdk.MdApiE R) : option ptr :=
  match e with
  | Sdk.CreateFtdcMdApi _ | Sdk.GetApiVersion => None
  | Sdk.Release a | Sdk.RegisterSpi a _ | Sdk.RegisterFront a _ | Sdk.Init a
  | Sdk.Join a | Sdk.ReqUserLogin a _ _ | Sdk.SubscribeMarketData a _ _ =>
      Some a
  end.

(** The SDK's answer to a call, as a return value. *)
Definition returned {R} (e : Sdk.MdApiE R) : R -> ret_val :=
  match e in Sdk.MdApiE R return R -> ret_val with
  | Sdk.CreateFtdcMdApi _ => fun _ => RVoid
  | Sdk.Release _ => fun _ => RVoid
  | Sdk.RegisterSpi _ _ => fun _ => RVoid
  | Sdk.RegisterFront _ _ => fun _ => RVoid
  | Sdk.Init _ => fun _ => RVoid
  | Sdk.Join _ => RInt
  | Sdk.ReqUserLogin _ _ _ => RInt
  | Sdk.SubscribeMarketData _ _ _ => RInt
  | Sdk.GetApiVersion => fun v => RString (until_nul v)
  end.

End Session.

(** *** The callbacks the module definition registers on [CThostFtdcMdSpi]
    ([.def(name, &CThostFtdcMdSpi::name)]), by name *)

Definition spi_bindings : list string :=
  ["OnFrontConnected"; "OnFrontDisconnected"; "OnRspUserLogin";
   "OnRtnDepthMarketData"; "OnRspSubMarketData"; "OnRspError"]%string.

End Ctp.

(* ================================================================= *)
(** ** nsq_pybind.cpp *)

Module Nsq.
Import C Eff Bind.
Local Open Scope eff_scope.

Definition sizeof (arr : list char) : Z := Z.of_nat (List.length arr).

(** [static void copy_cstr(char *dest, size_t dest_size, const std::string &src)] *)
Definition copy_cstr (dest : list char) (dest_size : Z) (src : std_string)
  : list char :=
  let dest := memset dest NUL dest_size in
  strncpy dest (c_str src) (to_size_t (dest_size - 1)).

(** *** Vendor records (the members the bindings touch) *)

Module CHSNsqRspInfoField.
Record t : Type := { ErrorID : scalar; ErrorMsg : list char }.
End CHSNsqRspInfoField.

Module CHSNsqReqUserLoginField.
Record t : Type := { AccountID : list char; Password : list char }.
End CHSNsqReqUserLoginField.

Module CHSNsqRspUserLoginField.
Record t : Type := {
  BranchID : scalar; AccountID : list char; UserName : list char;
  TradingDay : scalar }.
End CHSNsqRspUserLoginField.

Module CHSNsqReqFutuDepthMarketDataField.
Record t : Type := { ExchangeID : list char; InstrumentID : list char }.
End CHSNsqReqFutuDepthMarketDataField.

Module CHSNsqFutuDepthMarketDataField.
Record t : Type := {
  TradingDay : scalar; InstrumentID : list char; ExchangeID : list char;
  LastPrice : scalar; PreSettlementPrice : scalar; PreClosePrice : scalar;
  OpenPrice : scalar; HighestPrice : scalar; LowestPrice : scalar;
  TradeVolume : scalar; OpenInterest : scalar; UpdateTime : scalar;
  ActionDay : scalar;
  BidPrice : list scalar; BidVolume : list scalar;
  AskPrice : list scalar; AskVolume : list scalar }.
End CHSNsqFutuDepthMarketDataField.

(** *** The trampoline [PyNsqSpi] *)

Module PyNsqSpi.

Definition OnFrontConnected : M SpiE py_self unit :=
  PYBIND11_OVERLOAD "OnFrontConnected" [].

Definition OnFrontDisconnected (nResult : Z) : M SpiE py_self unit :=
  PYBIND11_OVERLOAD "OnFrontDisconnected" [AInt nResult].

Definition OnRspUserLogin (pRspUserLogin pRspInfo : ptr) (nRequestID : Z)
    (bIsLast : bool) : M SpiE py_self unit :=
  PYBIND11_OVERLOAD "OnRspUserLogin"
    [APtr pRspUserLogin; APtr pRspInfo; AInt nRequestID; ABool bIsLast].

Definition OnRspFutuDepthMarketDataSubscribe (pRspInfo : ptr)
    (nRequestID : Z) (bIsLast : bool) : M SpiE py_self unit :=
  PYBIND11_OVERLOAD "OnRspFutuDepthMarketDataSubscribe"
    [APtr pRspInfo; AInt nRequestID; ABool bIsLast].

Definition OnRtnFutuDepthMarketData (pFutuDepthMarketData : ptr)
  : M SpiE py_self unit :=
  PYBIND11_OVERLOAD "OnRtnFutuDepthMarketData" [APtr pFutuDepthMarketData].

End PyNsqSpi.

(** *** The entry points of the NSQ SDK the wrapper calls *)

Module Sdk.
Inductive NsqApiE : Type -> Type :=
| NewNsqApi (pszFlowPath : list char) : NsqApiE ptr
| NewNsqApiExt (pszFlowPath sdkCfgFilePath : list char) : NsqApiE ptr
| ReleaseApi (api : ptr) : NsqApiE unit
| RegisterSpi (api : ptr) (pSpi : ptr) : NsqApiE unit
| RegisterFront (api : ptr) (pszFrontAddress : list char) : NsqApiE Z
| Init (api : ptr) (pszLicFile pszSafeLevel pszPwd pszSslFile pszSslPwd
                     : list char) : NsqApiE Z
| ReqUserLogin (api : ptr) (pReqUserLogin : ptr) (nRequestID : Z) : NsqApiE Z
| GetApiErrorMsg (api : ptr) (nErrorCode : Z) : NsqApiE (option (list char))
| GetNsqApiVersion : NsqApiE (list char)
| ReqFutuDepthMarketDataSubscribe (api : ptr)
    (pReqFutuDepthMarketDataSubscribe :
       list CHSNsqReqFutuDepthMarketDataField.t)
    (nCount : Z) (nRequestID : Z) : NsqApiE Z.
End Sdk.

(** *** The wrapper [PyNsqApi] *)

Module PyNsqApi.
Import CHSNsqReqFutuDepthMarketDataField.

Record t : Type := { api_ : ptr }.

Definition Me (A : Type) : Type := M Sdk.NsqApiE t A.

(** [PyNsqApi(const std::string &flow_path, const std::string &sdk_cfg_file_path)] *)
Definition ctor (flow_path sdk_cfg_file_path : std_string)
  : M Sdk.NsqApiE unit t :=
  match sdk_cfg_file_path with
  | [] =>
      p <- call (Sdk.NewNsqApi (c_str flow_path)) ;;
      ret {| api_ := p |}
  | _ :: _ =>
      p <- call (Sdk.NewNsqApiExt (c_str flow_path) (c_str sdk_cfg_file_path)) ;;
      ret {| api_ := p |}
  end.

(** [~PyNsqApi()] *)
Definition dtor : Me unit :=
  this <- get ;;
  if non_null (api_ this) then
    call (Sdk.ReleaseApi (api_ this)) ;;
    put {| api_ := nullptr |}
  else ret tt.

Definition RegisterSpi (spi : ptr) : Me unit :=
  this <- get ;;
  if non_null (api_ this) then call (Sdk.RegisterSpi (api_ this) spi)
  else ret tt.

Definition RegisterFront (front : std_string) : Me Z :=
  this <- get ;;
  if non_null (api_ this) then
    call (Sdk.RegisterFront (api_ this) (c_str front))
  else ret (-1).

Definition Init (lic_file safe_level pwd ssl_file ssl_pwd : std_string)
  : Me Z :=
  this <- get ;;
  if non_null (api_ this) then
    call (Sdk.Init (api_ this) (c_str lic_file) (c_str safe_level)
            (c_str pwd) (c_str ssl_file) (c_str ssl_pwd))
  else ret (-1).

Definition ReqUserLogin (req : ptr) (request_id : Z) : Me Z :=
  this <- get ;;
  if non_null (api_ this) then
    call (Sdk.ReqUserLogin (api_ this) req request_id)
  else ret (-1).

(** The message comes back as a [const char*]: null, or a C string. *)
Definition GetApiErrorMsg (err : Z) : Me std_string :=
  this <- get ;;
  if negb (non_null (api_ this)) then ret []
  else
    msg <- call (Sdk.GetApiErrorMsg (api_ this) err) ;;
    ret (match msg with
         | Some mem => until_nul mem
         | None => []
         end).

Definition GetApiVersion : Me (list char) :=
  call Sdk.GetNsqApiVersion.

(** [v[i] = x] on a vector; an index past the end changes nothing here (the
    loops below never produce one). *)
Fixpoint assign {A} (v : list A) (i : nat) (x : A) : list A :=
  match v, i with
  | [], _ => []
  | _ :: rest, O => x :: rest
  | y :: rest, S j => y :: assign rest j x
  end.

Section Layout.
(** [sizeof] of the two arrays of [CHSNsqReqFutuDepthMarketDataField], from
    the vendor header. *)
Variables sizeof_ExchangeID sizeof_InstrumentID : Z.

(** A value-initialised record: [T{}], and what [resize] appends. *)
Definition zeroed : CHSNsqReqFutuDepthMarketDataField.t :=
  {| ExchangeID := repeat NUL (Z.to_nat sizeof_ExchangeID);
     InstrumentID := repeat NUL (Z.to_nat sizeof_InstrumentID) |}.

(** One round of the loop of [ReqFutuDepthMarketDataSubscribe]. *)
Definition fill_req (contracts : list (std_string * std_string))
    (reqs : list CHSNsqReqFutuDepthMarketDataField.t) (i : nat)
  : list CHSNsqReqFutuDepthMarketDataField.t :=
  match nth_error contracts i, nth_error reqs i with
  | Some c, Some r =>
      let r1 := {| ExchangeID := copy_cstr (ExchangeID r) sizeof_ExchangeID (fst c);
                   InstrumentID := InstrumentID r |} in
      let r2 := {| ExchangeID := ExchangeID r1;
                   InstrumentID :=
                     copy_cstr (InstrumentID r1) sizeof_InstrumentID (snd c) |} in
      assign reqs i r2
  | _, _ => reqs
  end.

Definition ReqFutuDepthMarketDataSubscribe
    (contracts : list (std_string * std_string)) (request_id : Z) : Me Z :=
  this <- get ;;
  if negb (non_null (api_ this)) then ret (-1)
  else
    let reqs := repeat zeroed (List.length contracts) in
    let reqs :=
      fold_left (fill_req contracts) (seq 0 (List.length contracts)) reqs in
    call (Sdk.ReqFutuDepthMarketDataSubscribe (api_ this) reqs
            (to_int (Z.of_nat (List.length reqs))) request_id).

Definition SubscribeMarket (exchange_id : std_string) (request_id : Z)
  : Me Z :=
  this <- get ;;
  if negb (non_null (api_ this)) then ret (-1)
  else
    let req := zeroed in
    let req := {| ExchangeID :=
                    copy_cstr (ExchangeID req) sizeof_ExchangeID exchange_id;
                  InstrumentID := InstrumentID req |} in
    call (Sdk.ReqFutuDepthMarketDataSubscribe (api_ this) [req] 0 request_id).

End Layout.

End PyNsqApi.

(** *** Bindings of [CHSNsqReqUserLoginField]: the property setters *)

Module ReqUserLoginBinding.
Import CHSNsqReqUserLoginField.

Definition get_AccountID (f : t) : option value := return_string (AccountID f).
Definition set_AccountID (f : t) (v : std_string) : t :=
  {| AccountID := copy_cstr (AccountID f) (sizeof (AccountID f)) v;
     Password := Password f |}.

Definition get_Password (f : t) : option value := return_string (Password f).
Definition set_Password (f : t) (v : std_string) : t :=
  {| AccountID := AccountID f;
     Password := copy_cstr (Password f) (sizeof (Password f)) v |}.

End ReqUserLoginBinding.

(** *** The read accessors: [members] is the record by member name, as the
    header declares it; [bindings] is the table the module definition
    registers, name by name. *)

Module RspInfoBinding.
Import CHSNsqRspInfoField.

Definition members (f : t) : list (string * member) :=
  [("ErrorID"%string, MScalar (ErrorID f));
   ("ErrorMsg"%string, MChars (ErrorMsg f))].

Definition bindings : list (string * getter t) :=
  [("ErrorID"%string, def_readonly ErrorID);
   ("ErrorMsg"%string,
    def_property_readonly (fun f => return_string (ErrorMsg f)))].

End RspInfoBinding.

Module ReqUserLoginGetters.
Import CHSNsqReqUserLoginField ReqUserLoginBinding.

Definition members (f : t) : list (string * member) :=
  [("AccountID"%string, MChars (AccountID f));
   ("Password"%string, MChars (Password f))].

Definition bindings : list (string * getter t) :=
  [("AccountID"%string, def_property_getter get_AccountID);
   ("Password"%string, def_property_getter get_Password)].

End ReqUserLoginGetters.

Module RspUserLoginBinding.
Import CHSNsqRspUserLoginField.

Definition members (f : t) : list (string * member) :=
  [("BranchID"%string, MScalar (BranchID f));
   ("AccountID"%string, MChars (AccountID f));
   ("UserName"%string, MChars (UserName f));
   ("TradingDay"%string, MScalar (TradingDay f))].

Definition bindings : list (string * getter t) :=
  [("BranchID"%string, def_readonly BranchID);
   ("AccountID"%string,
    def_property_readonly (fun f => return_string (AccountID f)));
   ("UserName"%string,
    def_property_readonly (fun f => return_string (UserName f)));
   ("TradingDay"%string, def_readonly TradingDay)].

End RspUserLoginBinding.

Module FutuDepthMarketDataBinding.
Import CHSNsqFutuDepthMarketDataField.

Definition members (f : t) : list (string * member) :=
  [("TradingDay"%string, MScalar (TradingDay f));
   ("InstrumentID"%string, MChars (InstrumentID f));
   ("ExchangeID"%string, MChars (ExchangeID f));
   ("LastPrice"%string, MScalar (LastPrice f));
   ("PreSettlementPrice"%string, MScalar (PreSettlementPrice f));
   ("PreClosePrice"%string, MScalar (PreClosePrice f));
   ("OpenPrice"%string, MScalar (OpenPrice f));
   ("HighestPrice"%string, MScalar (HighestPrice f));
   ("LowestPrice"%string, MScalar (LowestPrice f));
   ("TradeVolume"%string, MScalar (TradeVolume f));
   ("OpenInterest"%string, MScalar (OpenInterest f));
   ("UpdateTime"%string, MScalar (UpdateTime f));
   ("ActionDay"%string, MScalar (ActionDay f));
   ("BidPrice"%string, MArray (BidPrice f));
   ("BidVolume"%string, MArray (BidVolume f));
   ("AskPrice"%string, MArray (AskPrice f));
   ("AskVolume"%string, MArray (AskVolume f))].

Section Conv.
(** The implicit conversion of an integer member to [double]. *)
Variable int_to_double : Z -> float.

Definition to_double (x : scalar) : float :=
  match x with
  | SDouble d => d
  | SInt z => int_to_double z
  end.

(** [std::vector<double> v; v.reserve(5);
     for (int i = 0; i < 5; i++) v.push_back(f.m[i]); return v;]
    A read past the end of the array has no defined result. *)
Definition push_level (arr : list scalar) (v : option (list float)) (i : nat)
  : option (list float) :=
  match v, nth_error arr i with
  | Some v, Some x => Some (v ++ [to_double x])
  | _, _ => None
  end.

Definition five_levels (arr : list scalar) : option (list float) :=
  fold_left (push_level arr) (seq 0 5) (Some []).

Definition return_levels (arr : list scalar) : option value :=
  match five_levels arr with
  | Some v => Some (VVector v)
  | None => None
  end.

Definition bindings : list (string * getter t) :=
  [("TradingDay"%string, def_readonly TradingDay);
   ("InstrumentID"%string,
    def_property_readonly (fun f => return_string (InstrumentID f)));
   ("ExchangeID"%string,
    def_property_readonly (fun f => return_string (ExchangeID f)));
   ("LastPrice"%string, def_readonly LastPrice);
   ("PreSettlementPrice"%string, def_readonly PreSettlementPrice);
   ("PreClosePrice"%string, def_readonly PreClosePrice);
   ("OpenPrice"%string, def_readonly OpenPrice);
   ("HighestPrice"%string, def_readonly HighestPrice);
   ("LowestPrice"%string, def_readonly LowestPrice);
   ("TradeVolume"%string, def_readonly TradeVolume);
   ("OpenInterest"%string, def_readonly OpenInterest);
   ("UpdateTime"%string, def_readonly UpdateTime);
   ("ActionDay"%string, def_readonly ActionDay);
   ("BidPrice"%string,
    def_property_readonly (fun f => return_levels (BidPrice f)));
   ("BidVolume"%string,
    def_property_readonly (fun f => return_levels (BidVolume f)));
   ("AskPrice"%string,
    def_property_readonly (fun f => return_levels (AskPrice f)));
   ("AskVolume"%string,
    def_property_readonly (fun f => return_levels (AskVolume f)))].

End Conv.

End FutuDepthMarketDataBinding.

(** *** The virtual methods of [CHSNsqSpi] that [PyNsqSpi] overrides *)

Module Callback.

Inductive t : Type :=
| OnFrontConnected
| OnFrontDisconnected (nResult : Z)
| OnRspUserLogin (pRspUserLogin pRspInfo : ptr) (nRequestID : Z)
    (bIsLast : bool)
| OnRspFutuDepthMarketDataSubscribe (pRspInfo : ptr) (nRequestID : Z)
    (bIsLast : bool)
| OnRtnFutuDepthMarketData (pFutuDepthMarketData : ptr).

Definition fire (cb : t) : M SpiE py_self unit :=
  match cb with
  | OnFrontConnected => PyNsqSpi.OnFrontConnected
  | OnFrontDisconnected r => PyNsqSpi.OnFrontDisconnected r
  | OnRspUserLogin a b c d => PyNsqSpi.OnRspUserLogin a b c d
  | OnRspFutuDepthMarketDataSubscribe a b c =>
      PyNsqSpi.OnRspFutuDepthMarketDataSubscribe a b c
  | OnRtnFutuDepthMarketData a => PyNsqSpi.OnRtnFutuDepthMarketData a
  end.

Definition name (cb : t) : string :=
  match cb with
  | OnFrontConnected => "OnFrontConnected"
  | OnFrontDisconnected _ => "OnFrontDisconnected"
  | OnRspUserLogin _ _ _ _ => "OnRspUserLogin"
  | OnRspFutuDepthMarketDataSubscribe _ _ _ =>
      "OnRspFutuDepthMarketDataSubscribe"
  | OnRtnFutuDepthMarketData _ => "OnRtnFutuDepthMarketData"
  end.

Definition args (cb : t) : list arg :=
  match cb with
  | OnFrontConnected => []
  | OnFrontDisconnected r => [AInt r]
  | OnRspUserLogin a b c d => [APtr a; APtr b; AInt c; ABool d]
  | OnRspFutuDepthMarketDataSubscribe a b c => [APtr a; AInt b; ABool c]
  | OnRtnFutuDepthMarketData a => [APtr a]
  end.

End Callback.

(** *** The session methods of [PyNsqApi]: those that work on the handle *)

Module Session.

Section Layout.
Variables sizeof_ExchangeID sizeof_InstrumentID : Z.

Inductive method : Type :=
| RegisterSpi (spi : ptr)
| RegisterFront (front : std_string)
| Init (lic_file safe_level pwd ssl_file ssl_pwd : std_string)
| ReqUserLogin (req : ptr) (request_id : Z)
| GetApiErrorMsg (err : Z)
| ReqFutuDepthMarketDataSubscribe
    (contracts : list (std_string * std_string)) (request_id : Z)
| SubscribeMarket (exchange_id : std_string) (request_id : Z).

Definition return_type (m : method) : ctype :=
  match m with
  | RegisterSpi _ => TVoid
  | GetApiErrorMsg _ => TString
  | RegisterFront _ | Init _ _ _ _ _ | ReqUserLogin _ _
  | ReqFutuDepthMarketDataSubscribe _ _ | SubscribeMarket _ _ => TInt
  end.

Definition invoke (m : method) : PyNsqApi.Me ret_val :=
  match m with
  | RegisterSpi spi => _ <- PyNsqApi.RegisterSpi spi ;; ret RVoid
  | RegisterFront f => r <- PyNsqApi.RegisterFront f ;; ret (RInt r)
  | Init a b c d e => r <- PyNsqApi.Init a b c d e ;; ret (RInt r)
  | ReqUserLogin req id => r <- PyNsqApi.ReqUserLogin req id ;; ret (RInt r)
  | GetApiErrorMsg err => r <- PyNsqApi.GetApiErrorMsg err ;; ret (RString r)
  | ReqFutuDepthMarketDataSubscribe l id =>
      r <- PyNsqApi.ReqFutuDepthMarketDataSubscribe
             sizeof_ExchangeID sizeof_InstrumentID l id ;;
      ret (RInt r)
  | SubscribeMarket x id =>
      r <- PyNsqApi.SubscribeMarket sizeof_ExchangeID sizeof_InstrumentID x id ;;
      ret (RInt r)
  end.

End Layout.

Definition target {R} (e : Sdk.NsqApiE R) : option ptr :=
  match e with
  | Sdk.NewNsqApi _ | Sdk.NewNsqApiExt _ _ | Sdk.GetNsqApiVersion => None
  | Sdk.ReleaseApi a | Sdk.RegisterSpi a _ | Sdk.RegisterFront a _
  | Sdk.Init a _ _ _ _ _ | Sdk.ReqUserLogin a _ _ | Sdk.GetApiErrorMsg a _
  | Sdk.ReqFutuDepthMarketDataSubscribe a _ _ _ => Some a
  end.

Definition returned {R} (e : Sdk.NsqApiE R) : R -> ret_val :=
  match e in Sdk.NsqApiE R return R -> ret_val with
  | Sdk.NewNsqApi _ => fun _ => RVoid
  | Sdk.NewNsqApiExt _ _ => fun _ => RVoid
  | Sdk.ReleaseApi _ => fun _ => RVoid
  | Sdk.RegisterSpi _ _ => fun _ => RVoid
  | Sdk.RegisterFront _ _ => RInt
  | Sdk.Init _ _ _ _ _ _ => RInt
  | Sdk.ReqUserLogin _ _ _ => RInt
  | Sdk.GetApiErrorMsg _ _ =>
      fun msg => RString (match msg with
                          | Some mem => until_nul mem
                          | None => []
                          end)
  | Sdk.GetNsqApiVersion => fun v => RString (until_nul v)
  | Sdk.ReqFutuDepthMarketDataSubscribe _ _ _ _ => RInt
  end.

End Session.

(** *** The callbacks the module definition registers on [CHSNsqSpi], by
    name *)

Definition spi_bindings : list string :=
  ["OnFrontConnected"; "OnFrontDisconnected"; "OnRspUserLogin";
   "OnRspFutuDepthMarketDataSubscribe"; "OnRtnFutuDepthMarketData"]%string.

End Nsq.

(* ================================================================= *)
(** ** The interpreter's objects and the capsule API (CPython's [pycapsule.h]) *)

Module Py.
Import C Eff.
Local Open Scope eff_scope.

(** The objects the shim meets.  A capsule holds a pointer and a name (a C
    string, or NULL). *)
Inductive object : Type :=
| PyNone
| PyCapsule (pointer : ptr) (name : option string)
| PyBytes (b : list char)
| PyOther.

(** A [PyObject*]: objects are shared, and a capsule is changed in place. *)
Definition objref : Type := nat.

(** The interpreter: its objects, and the error indicator of the thread. *)
Record interp : Type := {
  heap : objref -> object;
  err : option string }.

Definition store (h : objref -> object) (o : objref) (x : object)
  : objref -> object :=
  fun o' => if Nat.eqb o' o then x else h o'.

(** [name_matches] of [capsule.c]: two NULL names match, otherwise [strcmp]. *)
Definition name_matches (name1 name2 : option string) : bool :=
  match name1, name2 with
  | Some a, Some b => String.eqb a b
  | None, None => true
  | _, _ => false
  end.

(** A capsule object whose pointer is not NULL. *)
Definition is_legal_capsule (x : object) : bool :=
  match x with
  | PyCapsule p _ => non_null p
  | _ => false
  end.

(** A capsule, with a pointer that is not NULL, whose name matches. *)
Definition valid_capsule (x : object) (name : string) : bool :=
  match x with
  | PyCapsule p n => non_null p && name_matches n (Some name)
  | _ => false
  end.

Section Api.
Context {E : Type -> Type}.

(** [PyCapsule_IsValid(o, name)].  It never fails. *)
Definition PyCapsule_IsValid (o : objref) (name : string)
  : M E interp bool :=
  s <- get ;;
  ret (valid_capsule (heap s o) name).

(** [PyCapsule_GetPointer(o, name)]: the pointer, or NULL with the error
    indicator set when [o] is no legal capsule or the name differs. *)
Definition PyCapsule_GetPointer (o : objref) (name : string)
  : M E interp ptr :=
  s <- get ;;
  match heap s o with
  | PyCapsule p n =>
      if negb (non_null p) then
        put {| heap := heap s;
               err := Some "PyCapsule_GetPointer called with invalid PyCapsule object"%string |} ;;
        ret nullptr
      else if name_matches n (Some name) then ret p
      else
        put {| heap := heap s;
               err := Some "PyCapsule_GetPointer called with incorrect name"%string |} ;;
        ret nullptr
  | _ =>
      put {| heap := heap s;
             err := Some "PyCapsule_GetPointer called with invalid PyCapsule object"%string |} ;;
      ret nullptr
  end.

(** [PyCapsule_SetPointer(o, pointer)]: "The pointer may not be NULL.  Return
    0 on success.  Return nonzero and set an exception on failure."  A NULL
    pointer is refused before the capsule is touched. *)
Definition PyCapsule_SetPointer (o : objref) (pointer : ptr)
  : M E interp Z :=
  s <- get ;;
  if negb (non_null pointer) then
    put {| heap := heap s;
           err := Some "PyCapsule_SetPointer called with null pointer"%string |} ;;
    ret (-1)
  else
    match heap s o with
    | PyCapsule p n =>
        if non_null p then
          put {| heap := store (heap s) o (PyCapsule pointer n);
                 err := err s |} ;;
          ret 0
        else
          put {| heap := heap s;
                 err := Some "PyCapsule_SetPointer called with invalid PyCapsule object"%string |} ;;
          ret (-1)
    | _ =>
        put {| heap := heap s;
               err := Some "PyCapsule_SetPointer called with invalid PyCapsule object"%string |} ;;
        ret (-1)
    end.

End Api.

(** How a bound function ends: it returns, it throws, or it has read outside
    a buffer. *)
Inductive outcome (A : Type) : Type :=
| Returned (a : A)
| Thrown (what : string)
| Undefined.
Arguments Returned {A} a.
Arguments Thrown {A} what.
Arguments Undefined {A}.

End Py.

(* ================================================================= *)
(** ** exanic_pybind.cpp *)

Module Exanic.
Import C Eff Py.
Local Open Scope eff_scope.

Definition CAPSULE_EXANIC : string := "exanic_t".
Definition CAPSULE_EXANIC_RX : string := "exanic_rx_t".

(** The entry points of [exanic.h] and [fifo_rx.h] the module calls.
    [exanic_receive_frame] writes into the caller's buffer: its answer is the
    length it returns and the buffer as it left it. *)
Module Sdk.
Inductive ExanicE : Type -> Type :=
| exanic_acquire_handle (device_name : list char) : ExanicE ptr
| exanic_acquire_rx_buffer (nic : ptr) (port_number buffer_number : Z)
  : ExanicE ptr
| exanic_receive_frame (rx : ptr) (rx_buf : list char) (rx_buf_size : Z)
    (timestamp : ptr) : ExanicE (Z * list char)
| exanic_release_rx_buffer (rx : ptr) : ExanicE unit
| exanic_release_handle (nic : ptr) : ExanicE unit
| exanic_get_last_error : ExanicE (option (list char)).
End Sdk.
Import Sdk.

Definition Mx (A : Type) : Type := M ExanicE interp A.

(** [py::bytes(data, n)]: a copy of the [n] chars at [data], which must lie
    inside the storage [data] points into. *)
Definition py_bytes (storage : list char) (n : Z) : outcome (list char) :=
  if Z.of_nat (List.length storage) <? n then Undefined
  else Returned (firstn (Z.to_nat n) storage).

Definition acquire_handle (device_name : std_string) : Mx object :=
  nic <- call (exanic_acquire_handle (c_str device_name)) ;;
  if negb (non_null nic) then ret PyNone
  else ret (PyCapsule nic (Some CAPSULE_EXANIC)).

Definition acquire_rx_buffer (handle_cap : objref)
    (port_number buffer_number : Z) : Mx (outcome object) :=
  valid <- PyCapsule_IsValid handle_cap CAPSULE_EXANIC ;;
  if negb valid then ret (Thrown "invalid exanic handle capsule")
  else
    nic <- PyCapsule_GetPointer handle_cap CAPSULE_EXANIC ;;
    rx <- call (exanic_acquire_rx_buffer nic port_number buffer_number) ;;
    if negb (non_null rx) then ret (Returned PyNone)
    else ret (Returned (PyCapsule rx (Some CAPSULE_EXANIC_RX))).

(** What the C++ runtime the module is built with decides: the longest
    [std::string] it makes ([std::string::max_size()]), and whether the
    allocator has room for a string of a given size. *)
Record cxx_runtime : Type := {
  string_max_size : Z;
  allocates : Z -> bool }.

(** [what()] of the exceptions the string constructor throws, as libstdc++
    words them. *)
Definition length_error_what : string := "basic_string::_M_create".
Definition bad_alloc_what : string := "std::bad_alloc".

(** [std::string buf(n, c)]: [n] copies of [c]; [std::length_error] when [n]
    is more than [max_size()], [std::bad_alloc] when the allocation fails. *)
Definition new_string (rt : cxx_runtime) (n : Z) (c : char)
  : outcome (list char) :=
  if string_max_size rt <? n then Thrown length_error_what
  else if negb (allocates rt n) then Thrown bad_alloc_what
  else Returned (repeat c (Z.to_nat n)).

(** [max_size] is a [size_t]: the argument conversion hands the function no
    other value. *)
Definition receive_frame (rt : cxx_runtime) (rx_cap : objref) (max_size : Z)
  : Mx (outcome (list char)) :=
  valid <- PyCapsule_IsValid rx_cap CAPSULE_EXANIC_RX ;;
  if negb valid then ret (Thrown "invalid exanic_rx handle capsule")
  else
    rx <- PyCapsule_GetPointer rx_cap CAPSULE_EXANIC_RX ;;
    let max_size := if max_size =? 0 then 2048 else max_size in
    match new_string rt max_size NUL with
    | Thrown what => ret (Thrown what)
    | Undefined => ret Undefined
    | Returned buf =>
        r <- call (exanic_receive_frame rx buf max_size nullptr) ;;
        let n := fst r in
        let buf := snd r in
        if n <=? 0 then ret (Returned [])
        else ret (py_bytes (c_str buf) (to_size_t n))
    end.

Definition release_rx_buffer (rx_cap : objref) : Mx unit :=
  valid <- PyCapsule_IsValid rx_cap CAPSULE_EXANIC_RX ;;
  if negb valid then ret tt
  else
    rx <- PyCapsule_GetPointer rx_cap CAPSULE_EXANIC_RX ;;
    call (exanic_release_rx_buffer rx) ;;
    PyCapsule_SetPointer rx_cap nullptr ;;
    ret tt.

Definition release_handle (handle_cap : objref) : Mx unit :=
  valid <- PyCapsule_IsValid handle_cap CAPSULE_EXANIC ;;
  if negb valid then ret tt
  else
    nic <- PyCapsule_GetPointer handle_cap CAPSULE_EXANIC ;;
    call (exanic_release_handle nic) ;;
    PyCapsule_SetPointer handle_cap nullptr ;;
    ret tt.

Definition get_last_error : Mx std_string :=
  e <- call exanic_get_last_error ;;
  ret (match e with
       | Some mem => until_nul mem
       | None => []
       end).

End Exanic.

(* ================================================================= *)
(** * Sample SDKs and records, to run the shims on concrete inputs *)

Module Samples.
Import C Eff Bind.

(** A CTP SDK that hands out the handle 4096 and answers 7 to every request. *)
Definition ctp_sdk : oracle Ctp.Sdk.MdApiE :=
  fun _ R e =>
    match e in Ctp.Sdk.MdApiE R return R with
    | Ctp.Sdk.CreateFtdcMdApi _ => 4096
    | Ctp.Sdk.Release _ => tt
    | Ctp.Sdk.RegisterSpi _ _ => tt
    | Ctp.Sdk.RegisterFront _ _ => tt
    | Ctp.Sdk.Init _ => tt
    | Ctp.Sdk.Join _ => 7
    | Ctp.Sdk.ReqUserLogin _ _ _ => 7
    | Ctp.Sdk.SubscribeMarketData _ _ _ => 7
    | Ctp.Sdk.GetApiVersion => list_ascii_of_string "v6"
    end.

(** An NSQ SDK that hands out the handle 8192 and answers 0 to every request. *)
Definition nsq_sdk : oracle Nsq.Sdk.NsqApiE :=
  fun _ R e =>
    match e in Nsq.Sdk.NsqApiE R return R with
    | Nsq.Sdk.NewNsqApi _ => 8192
    | Nsq.Sdk.NewNsqApiExt _ _ => 8192
    | Nsq.Sdk.ReleaseApi _ => tt
    | Nsq.Sdk.RegisterSpi _ _ => tt
    | Nsq.Sdk.RegisterFront _ _ => 0
    | Nsq.Sdk.Init _ _ _ _ _ _ => 0
    | Nsq.Sdk.ReqUserLogin _ _ _ => 0
    | Nsq.Sdk.GetApiErrorMsg _ _ => None
    | Nsq.Sdk.GetNsqApiVersion => list_ascii_of_string "v1"
    | Nsq.Sdk.ReqFutuDepthMarketDataSubscribe _ _ _ _ => 0
    end.

(** The script side and the base class: callbacks return nothing. *)
Definition spi_sdk : oracle SpiE :=
  fun _ R e =>
    match e in SpiE R return R with
    | Override _ _ => tt
    | Base _ _ => tt
    end.

(** An ExaNIC SDK with one device at 4096 and one RX buffer at 8192; each
    receive writes the frame "ping" at the start of the buffer. *)
Definition exanic_sdk : oracle Exanic.Sdk.ExanicE :=
  fun _ R e =>
    match e in Exanic.Sdk.ExanicE R return R with
    | Exanic.Sdk.exanic_acquire_handle _ => 4096
    | Exanic.Sdk.exanic_acquire_rx_buffer _ _ _ => 8192
    | Exanic.Sdk.exanic_receive_frame _ buf _ _ =>
        (4, list_ascii_of_string "ping" ++ skipn 4 buf)
    | Exanic.Sdk.exanic_release_rx_buffer _ => tt
    | Exanic.Sdk.exanic_release_handle _ => tt
    | Exanic.Sdk.exanic_get_last_error => None
    end.

(** An ExaNIC SDK that reports one char more than the buffer it was given. *)
Definition exanic_greedy : oracle Exanic.Sdk.ExanicE :=
  fun _ R e =>
    match e in Exanic.Sdk.ExanicE R return R with
    | Exanic.Sdk.exanic_acquire_handle _ => 4096
    | Exanic.Sdk.exanic_acquire_rx_buffer _ _ _ => 8192
    | Exanic.Sdk.exanic_receive_frame _ buf size _ => (size + 1, buf)
    | Exanic.Sdk.exanic_release_rx_buffer _ => tt
    | Exanic.Sdk.exanic_release_handle _ => tt
    | Exanic.Sdk.exanic_get_last_error => None
    end.

(** A C++ runtime whose strings hold at most 2^62 - 1 chars and whose
    allocator has room for a gigabyte. *)
Definition runtime : Exanic.cxx_runtime :=
  {| Exanic.string_max_size := 2 ^ 62 - 1;
     Exanic.allocates := fun n => n <=? 2 ^ 30 |}.

(** An ExaNIC SDK with no device: every acquire fails. *)
Definition exanic_absent : oracle Exanic.Sdk.ExanicE :=
  fun _ R e =>
    match e in Exanic.Sdk.ExanicE R return R with
    | Exanic.Sdk.exanic_acquire_handle _ => 0
    | Exanic.Sdk.exanic_acquire_rx_buffer _ _ _ => 0
    | Exanic.Sdk.exanic_receive_frame _ buf _ _ => (-1, buf)
    | Exanic.Sdk.exanic_release_rx_buffer _ => tt
    | Exanic.Sdk.exanic_release_handle _ => tt
    | Exanic.Sdk.exanic_get_last_error =>
        Some (c_str (list_ascii_of_string "no such device"))
    end.

(** Zeroed request records with the array sizes of the CTP header and sizes in
    the range the NSQ header uses. *)
Definition ctp_req : Ctp.CThostFtdcReqUserLoginField.t :=
  {| Ctp.CThostFtdcReqUserLoginField.BrokerID := repeat NUL 11;
     Ctp.CThostFtdcReqUserLoginField.UserID := repeat NUL 16;
     Ctp.CThostFtdcReqUserLoginField.Password := repeat NUL 41 |}.

Definition nsq_req : Nsq.CHSNsqReqUserLoginField.t :=
  {| Nsq.CHSNsqReqUserLoginField.AccountID := repeat NUL 19;
     Nsq.CHSNsqReqUserLoginField.Password := repeat NUL 41 |}.

(** An interpreter with an RX-buffer capsule as object 0, a device capsule as
    object 1, a bytes object as object 2 and a released-looking capsule (null
    pointer) as object 3. *)
Definition interp0 : Py.interp :=
  {| Py.heap := fun o =>
       match o with
       | 0%nat => Py.PyCapsule 8192 (Some Exanic.CAPSULE_EXANIC_RX)
       | 1%nat => Py.PyCapsule 4096 (Some Exanic.CAPSULE_EXANIC)
       | 2%nat => Py.PyBytes (list_ascii_of_string "raw")
       | 3%nat => Py.PyCapsule 0 (Some Exanic.CAPSULE_EXANIC)
       | _ => Py.PyNone
       end;
     Py.err := None |}.

(** A futures depth record: five bid and ask prices (doubles) and volumes
    (integers). *)
Definition bid_prices : list float :=
  [3500.5; 3500; 3499.5; 3499; 3498.5]%float.

Definition nsq_depth : Nsq.CHSNsqFutuDepthMarketDataField.t :=
  {| Nsq.CHSNsqFutuDepthMarketDataField.TradingDay := SInt 20250102;
     Nsq.CHSNsqFutuDepthMarketDataField.InstrumentID :=
       c_str (list_ascii_of_string "rb2505");
     Nsq.CHSNsqFutuDepthMarketDataField.ExchangeID :=
       c_str (list_ascii_of_string "F3");
     Nsq.CHSNsqFutuDepthMarketDataField.LastPrice := SDouble 3500.5;
     Nsq.CHSNsqFutuDepthMarketDataField.PreSettlementPrice := SDouble 3490;
     Nsq.CHSNsqFutuDepthMarketDataField.PreClosePrice := SDouble 3491;
     Nsq.CHSNsqFutuDepthMarketDataField.OpenPrice := SDouble 3495;
     Nsq.CHSNsqFutuDepthMarketDataField.HighestPrice := SDouble 3510;
     Nsq.CHSNsqFutuDepthMarketDataField.LowestPrice := SDouble 3488;
     Nsq.CHSNsqFutuDepthMarketDataField.TradeVolume := SInt 120000;
     Nsq.CHSNsqFutuDepthMarketDataField.OpenInterest := SInt 900000;
     Nsq.CHSNsqFutuDepthMarketDataField.UpdateTime := SInt 93000500;
     Nsq.CHSNsqFutuDepthMarketDataField.ActionDay := SInt 20250102;
     Nsq.CHSNsqFutuDepthMarketDataField.BidPrice := map SDouble bid_prices;
     Nsq.CHSNsqFutuDepthMarketDataField.BidVolume :=
       map SInt [10; 20; 30; 40; 50];
     Nsq.CHSNsqFutuDepthMarketDataField.AskPrice :=
       map SDouble [3501; 3501.5; 3502; 3502.5; 3503]%float;
     Nsq.CHSNsqFutuDepthMarketDataField.AskVolume :=
       map SInt [11; 21; 31; 41; 51] |}.

End Samples.

(* ================================================================= *)
(** * What the properties are stated with *)

Module Spec.
Import C Eff Bind Py.

(** ** Strings in char arrays *)

(** [v] cut to what a C array of [size] chars can hold with its NUL. *)
Definition truncated (v : std_string) (size : nat) : std_string :=
  firstn (size - 1) v.

(** The array after the store ends in NUL and the getter returns [s]. *)
Definition reads_back_as (arr : list char) (got : option value)
    (s : std_string) : Prop :=
  got = Some (VString s) /\ nul_terminated arr.

(** A size a [size_t] can hold, of an array with at least one element. *)
Definition array_size_ok (arr : list char) : Prop :=
  0 < Z.of_nat (List.length arr) < 2 ^ SIZE_WIDTH.

(** The three shapes the read-back laws take, for a member [m] of a record
    with setter [set] and getter [get]. *)
Section Laws.
Context {T : Type}.
Variables (m : T -> list char) (set : T -> std_string -> T)
  (get : T -> option value).

(** The store keeps the C string of [v], cut to the member's size. *)
Definition truncating_store (v : std_string) : Prop :=
  forall f, array_size_ok (m f) ->
    reads_back_as (m (set f v)) (get (set f v))
      (truncated (until_nul v) (List.length (m f))).

(** The store keeps the C string of [v] when it is shorter than the member. *)
Definition fitting_store (v : std_string) : Prop :=
  forall f, (List.length (until_nul v) < List.length (m f))%nat ->
    reads_back_as (m (set f v)) (get (set f v)) (until_nul v).

(** Set-then-get gives [v] back when [v] is shorter than the member. *)
Definition round_trip (v : std_string) : Prop :=
  forall f, array_size_ok (m f) ->
    (List.length v < List.length (m f))%nat ->
    get (set f v) = Some (VString v).

End Laws.

(** ** Session methods *)

(** What a method gives back without asking the SDK. *)
Definition null_result (ty : ctype) : ret_val :=
  match ty with
  | TVoid => RVoid
  | TInt => RInt (-1)
  | TString => RString []
  end.

(** A run leaves [this] alone; on a null handle it makes no SDK call and
    returns [null_result]; on a handle it makes exactly one call, on that
    handle, and returns the SDK's answer to it. *)
Definition passes_through {E : Type -> Type} {T : Type}
    (handle : T -> ptr) (target : forall R, E R -> option ptr)
    (returned : forall R, E R -> R -> ret_val)
    (ty : ctype) (m : M E T ret_val) : Prop :=
  forall (sdk : oracle E) (this : T) (t : list (event E)),
    let r := m sdk this t in
    state r = this
    /\ (handle this = nullptr ->
        trace r = t /\ result r = null_result ty)
    /\ (handle this <> nullptr ->
        exists R (e : E R),
          target R e = Some (handle this)
          /\ trace r = t ++ [Called e]
          /\ result r = returned R e (sdk t R e)).

(** ** Subscription requests *)

Section Layout.
Variables sizeof_ExchangeID sizeof_InstrumentID : Z.

(** The record the loop of [ReqFutuDepthMarketDataSubscribe] leaves for one
    (exchange, instrument) pair. *)
Definition req_of (c : std_string * std_string)
  : Nsq.CHSNsqReqFutuDepthMarketDataField.t :=
  {| Nsq.CHSNsqReqFutuDepthMarketDataField.ExchangeID :=
       Nsq.copy_cstr (repeat NUL (Z.to_nat sizeof_ExchangeID))
         sizeof_ExchangeID (fst c);
     Nsq.CHSNsqReqFutuDepthMarketDataField.InstrumentID :=
       Nsq.copy_cstr (repeat NUL (Z.to_nat sizeof_InstrumentID))
         sizeof_InstrumentID (snd c) |}.

End Layout.

(** A record holds a pair: each array reads back as the C string of the
    component, cut to what the array can hold. *)
Definition holds (sx si : Z) (c : std_string * std_string)
    (r : Nsq.CHSNsqReqFutuDepthMarketDataField.t) : Prop :=
  string_of_cstr (Nsq.CHSNsqReqFutuDepthMarketDataField.ExchangeID r)
    = Some (truncated (until_nul (fst c)) (Z.to_nat sx))
  /\ string_of_cstr (Nsq.CHSNsqReqFutuDepthMarketDataField.InstrumentID r)
     = Some (truncated (until_nul (snd c)) (Z.to_nat si)).

(** ** Callbacks *)

(** A callback [fn] with arguments [args] goes to the script's method [fn]
    with the same arguments when the script object has one, and to the base
    class method [fn] with the same arguments otherwise; nothing else
    happens. *)
Definition forwards (m : M SpiE py_self unit) (fn : string)
    (args : list arg) : Prop :=
  forall (sdk : oracle SpiE) (self : py_self) (t : list (event SpiE)),
    let r := m sdk self t in
    state r = self
    /\ (In fn (py_methods self) ->
        trace r = t ++ [Called (Override fn args)])
    /\ (~ In fn (py_methods self) ->
        trace r = t ++ [Called (Base fn args)]).

(** ** Record accessors *)

(** The first entry under a name. *)
Fixpoint assoc {A} (name : string) (l : list (string * A)) : option A :=
  match l with
  | [] => None
  | (n, a) :: rest => if String.eqb name n then Some a else assoc name rest
  end.

Section Conv.
Variable int_to_double : Z -> float.

Let to_double := Nsq.FutuDepthMarketDataBinding.to_double int_to_double.

(** What an accessor must return for a member: the scalar itself; for a char
    array, the chars before its first NUL; for a price or volume ladder, its
    first five entries as doubles. *)
Definition shows (m : member) (v : option value) : Prop :=
  match m with
  | MScalar s => v = Some (VScalar s)
  | MChars arr =>
      forall s rest, arr = s ++ NUL :: rest -> ~ In NUL s ->
        v = Some (VString s)
  | MArray arr =>
      (5 <= List.length arr)%nat ->
      v = Some (VVector (map to_double (firstn 5 arr)))
  end.

(** Every accessor of the table returns what the member of the same name
    holds, and leaves the record as it found it. *)
Definition reads_members {T} (members : T -> list (string * member))
    (bindings : list (string * getter T)) : Prop :=
  forall name g, In (name, g) bindings ->
    forall f : T,
      snd (g f) = f
      /\ exists m, assoc name (members f) = Some m /\ shows m (fst (g f)).

End Conv.

(** The accessor bound under [name] returns five doubles: the first five
    entries of the ladder [arr], converted to double (and so those entries
    themselves when the ladder is an array of doubles). *)
Definition ladder (int_to_double : Z -> float)
    (f : Nsq.CHSNsqFutuDepthMarketDataField.t) (name : string)
    (arr : list scalar) : Prop :=
  (5 <= List.length arr)%nat ->
  exists g v,
    assoc name (Nsq.FutuDepthMarketDataBinding.bindings int_to_double) = Some g
    /\ g f = (Some (VVector v), f)
    /\ List.length v = 5%nat
    /\ (forall i, (i < 5)%nat ->
          nth_error v i =
          option_map (Nsq.FutuDepthMarketDataBinding.to_double int_to_double)
            (nth_error arr i))
    /\ (forall ds, arr = map SDouble ds -> v = firstn 5 ds).

(** ** Capsules and frames *)

(** The state a release leaves behind: the objects of [s], and the pending
    error of the refused store. *)
Definition after_release (s : interp) : interp :=
  {| heap := heap s;
     err := Some "PyCapsule_SetPointer called with null pointer"%string |}.

(** The object an acquire function returns for the pointer [p] the vendor
    gave: None for a null pointer, else a capsule of the given name around
    [p]. *)
Definition wraps (x : object) (p : ptr) (name : string) : Prop :=
  (x = PyNone <-> p = nullptr)
  /\ (p <> nullptr -> x = PyCapsule p (Some name)).

(** The buffer size [receive_frame] works with. *)
Definition effective_size (max_size : Z) : Z :=
  if max_size =? 0 then 2048 else max_size.

(** A value of type [size_t]. *)
Definition is_size_t (z : Z) : Prop := 0 <= z < 2 ^ SIZE_WIDTH.

(** The runtime can make a string of [n] chars: [n] is within
    [std::string::max_size()] and the allocator has room. *)
Definition builds (rt : Exanic.cxx_runtime) (n : Z) : bool :=
  (n <=? Exanic.string_max_size rt) && Exanic.allocates rt n.

End Spec.

(** ** Lifetimes, layouts and capsule kinds *)

Module MoreSpec.
Import C Eff Bind Py Spec.

(** The whole life of a [PyMdApi]: constructed, then destroyed. *)
Definition ctp_lifetime (flow_path : std_string) (sdk : oracle Ctp.Sdk.MdApiE)
    (t : list (event Ctp.Sdk.MdApiE)) :=
  let r := Ctp.PyMdApi.ctor flow_path sdk tt t in
  Ctp.PyMdApi.dtor sdk (result r) (trace r).

(** The whole life of a [PyNsqApi]. *)
Definition nsq_lifetime (flow_path cfg : std_string)
    (sdk : oracle Nsq.Sdk.NsqApiE) (t : list (event Nsq.Sdk.NsqApiE)) :=
  let r := Nsq.PyNsqApi.ctor flow_path cfg sdk tt t in
  Nsq.PyNsqApi.dtor sdk (result r) (trace r).

(** The factory a [PyNsqApi] is made by. *)
Definition nsq_factory (flow_path cfg : std_string) : Nsq.Sdk.NsqApiE ptr :=
  match cfg with
  | [] => Nsq.Sdk.NewNsqApi (c_str flow_path)
  | _ :: _ => Nsq.Sdk.NewNsqApiExt (c_str flow_path) (c_str cfg)
  end.

(** A char array of [size] chars whose last char is NUL. *)
Definition terminated_array (size : Z) (arr : list char) : Prop :=
  List.length arr = Z.to_nat size /\ nul_terminated arr.

(** A subscription record whose two arrays have the header's sizes and end
    in NUL. *)
Definition well_formed_req (sx si : Z)
    (r : Nsq.CHSNsqReqFutuDepthMarketDataField.t) : Prop :=
  terminated_array sx (Nsq.CHSNsqReqFutuDepthMarketDataField.ExchangeID r)
  /\ terminated_array si
       (Nsq.CHSNsqReqFutuDepthMarketDataField.InstrumentID r).

(** Two login requests whose arrays have the same sizes. *)
Definition ctp_same_layout (f f' : Ctp.CThostFtdcReqUserLoginField.t)
  : Prop :=
  List.length (Ctp.CThostFtdcReqUserLoginField.BrokerID f')
    = List.length (Ctp.CThostFtdcReqUserLoginField.BrokerID f)
  /\ List.length (Ctp.CThostFtdcReqUserLoginField.UserID f')
     = List.length (Ctp.CThostFtdcReqUserLoginField.UserID f)
  /\ List.length (Ctp.CThostFtdcReqUserLoginField.Password f')
     = List.length (Ctp.CThostFtdcReqUserLoginField.Password f).

Definition nsq_same_layout (f f' : Nsq.CHSNsqReqUserLoginField.t) : Prop :=
  List.length (Nsq.CHSNsqReqUserLoginField.AccountID f')
    = List.length (Nsq.CHSNsqReqUserLoginField.AccountID f)
  /\ List.length (Nsq.CHSNsqReqUserLoginField.Password f')
     = List.length (Nsq.CHSNsqReqUserLoginField.Password f).

(** [f'] is [f] but for the member [m]. *)
Definition ctp_others_kept (m : string)
    (f f' : Ctp.CThostFtdcReqUserLoginField.t) : Prop :=
  (m <> "BrokerID"%string ->
   Ctp.CThostFtdcReqUserLoginField.BrokerID f'
   = Ctp.CThostFtdcReqUserLoginField.BrokerID f)
  /\ (m <> "UserID"%string ->
      Ctp.CThostFtdcReqUserLoginField.UserID f'
      = Ctp.CThostFtdcReqUserLoginField.UserID f)
  /\ (m <> "Password"%string ->
      Ctp.CThostFtdcReqUserLoginField.Password f'
      = Ctp.CThostFtdcReqUserLoginField.Password f).

Definition nsq_others_kept (m : string)
    (f f' : Nsq.CHSNsqReqUserLoginField.t) : Prop :=
  (m <> "AccountID"%string ->
   Nsq.CHSNsqReqUserLoginField.AccountID f'
   = Nsq.CHSNsqReqUserLoginField.AccountID f)
  /\ (m <> "Password"%string ->
      Nsq.CHSNsqReqUserLoginField.Password f'
      = Nsq.CHSNsqReqUserLoginField.Password f).

End MoreSpec.

(* ================================================================= *)
(** * Properties *)

(** ** C strings *)

Module CFacts.
Import C.

Lemma is_nul_true (c : char) : is_nul c = true <-> c = NUL.
Proof. unfold is_nul. apply Ascii.eqb_eq. Qed.

Lemma is_nul_false (c : char) : is_nul c = false <-> c <> NUL.
Proof. unfold is_nul. apply Ascii.eqb_neq. Qed.

Lemma until_nul_no_nul (mem : list char) : ~ In NUL (until_nul mem).
Proof.
  induction mem as [|c rest IH]; simpl; [tauto|].
  destruct (is_nul c) eqn:Hc; simpl; [tauto|].
  apply is_nul_false in Hc. intros [H|H]; [congruence | tauto].
Qed.

Lemma until_nul_id (s : list char) : ~ In NUL s -> until_nul s = s.
Proof.
  induction s as [|c rest IH]; simpl; intros H; [reflexivity|].
  destruct (is_nul c) eqn:Hc.
  - apply is_nul_true in Hc. subst. tauto.
  - f_equal. apply IH. tauto.
Qed.

Lemma until_nul_app (s rest : list char) :
  ~ In NUL s -> until_nul (s ++ NUL :: rest) = s.
Proof.
  induction s as [|c s IH]; simpl; intros H.
  - reflexivity.
  - destruct (is_nul c) eqn:Hc.
    + apply is_nul_true in Hc. subst. tauto.
    + f_equal. apply IH. tauto.
Qed.

Lemma until_nul_c_str (v : std_string) : until_nul (c_str v) = until_nul v.
Proof.
  unfold c_str. induction v as [|c v IH]; simpl; [reflexivity|].
  destruct (is_nul c); [reflexivity | now rewrite IH].
Qed.

Lemma until_nul_length (mem : list char) :
  (List.length (until_nul mem) <= List.length mem)%nat.
Proof.
  induction mem as [|c rest IH]; simpl; [lia|].
  destruct (is_nul c); simpl; lia.
Qed.

(** Reading a C string stops at the first NUL of the array. *)
Lemma string_of_cstr_app (s rest : list char) :
  ~ In NUL s -> string_of_cstr (s ++ NUL :: rest) = Some s.
Proof.
  induction s as [|c s IH]; simpl; intros H.
  - reflexivity.
  - destruct (is_nul c) eqn:Hc.
    + apply is_nul_true in Hc. subst. tauto.
    + rewrite IH by tauto. reflexivity.
Qed.

(** An array with no NUL cannot be read as a C string. *)
Lemma string_of_cstr_none (arr : list char) :
  ~ In NUL arr -> string_of_cstr arr = None.
Proof.
  induction arr as [|c arr IH]; simpl; intros H; [reflexivity|].
  destruct (is_nul c) eqn:Hc.
  - apply is_nul_true in Hc. subst. tauto.
  - rewrite IH by tauto. reflexivity.
Qed.

(** What a successful read says about the array. *)
Lemma string_of_cstr_inv (arr : list char) (s : std_string) :
  string_of_cstr arr = Some s ->
  ~ In NUL s /\ exists rest, arr = s ++ NUL :: rest.
Proof.
  revert s. induction arr as [|c arr IH]; simpl; intros s H; [discriminate|].
  destruct (is_nul c) eqn:Hc.
  - injection H as <-. apply is_nul_true in Hc. subst.
    split; [tauto | now exists arr].
  - destruct (string_of_cstr arr) as [s'|]; [|discriminate].
    injection H as <-. destruct (IH s' eq_refl) as [Hs [rest ->]].
    apply is_nul_false in Hc. split.
    + intros [E|E]; [congruence | tauto].
    + now exists rest.
Qed.

Lemma strncpy_chars_length (src : list char) (n : nat) :
  List.length (strncpy_chars src n) = n.
Proof.
  revert src. induction n as [|n IH]; intros src; [reflexivity|].
  cbn [strncpy_chars]. destruct src as [|c rest].
  - apply repeat_length.
  - destruct (is_nul c); [apply repeat_length|].
    cbn [List.length]. now rewrite IH.
Qed.

(** [strncpy] writes the start of the C string and pads with NUL. *)
Lemma strncpy_chars_spec (src : list char) (n : nat) :
  strncpy_chars src n =
  firstn n (until_nul src) ++ repeat NUL (n - List.length (until_nul src)).
Proof.
  revert src. induction n as [|n IH]; intros src; [reflexivity|].
  cbn [strncpy_chars]. destruct src as [|c rest].
  - reflexivity.
  - cbn [until_nul]. destruct (is_nul c).
    + reflexivity.
    + cbn [firstn List.length Nat.sub app]. now rewrite IH.
Qed.

Lemma firstn_no_nul (n : nat) (s : list char) :
  ~ In NUL s -> ~ In NUL (firstn n s).
Proof.
  intros H Hin. apply H.
  rewrite <- (firstn_skipn n s). apply in_or_app. now left.
Qed.

End CFacts.

(** ** The two ways the bindings store a string into a char array *)

Module SetterFacts.
Import C CFacts.

Lemma nul_terminated_snoc (l : list char) : nul_terminated (l ++ [NUL]).
Proof.
  unfold nul_terminated. rewrite length_app. cbn [List.length].
  rewrite nth_error_app2 by lia.
  replace (List.length l + 1 - 1 - List.length l)%nat with 0%nat by lia.
  reflexivity.
Qed.

Lemma nul_terminated_in (arr : list char) : nul_terminated arr -> In NUL arr.
Proof. unfold nul_terminated. intros H. eapply nth_error_In; eauto. Qed.

Lemma repeat_snoc {A} (x : A) (n : nat) : repeat x (S n) = repeat x n ++ [x].
Proof. induction n as [|n IH]; [reflexivity|]. simpl in *. now rewrite <- IH. Qed.

(** [Nsq.copy_cstr] on an array of [dest_size] chars: the start of the C
    string, at most [dest_size - 1] chars of it, then NUL to the end. *)
Lemma copy_cstr_eq (dest : list char) (dest_size : Z) (src : std_string) :
  0 < dest_size < 2 ^ SIZE_WIDTH ->
  List.length dest = Z.to_nat dest_size ->
  let k := (Z.to_nat dest_size - 1)%nat in
  Nsq.copy_cstr dest dest_size src =
  firstn k (until_nul src)
    ++ repeat NUL (k - List.length (until_nul src)) ++ [NUL].
Proof.
  intros Hsize Hlen k. unfold Nsq.copy_cstr, strncpy, memset, to_size_t.
  rewrite Z.mod_small by lia.
  replace (Z.to_nat (dest_size - 1)) with k by (unfold k; lia).
  rewrite strncpy_chars_spec, until_nul_c_str, <- app_assoc. do 2 f_equal.
  rewrite (skipn_all2 dest) by lia. rewrite app_nil_r.
  replace (Z.to_nat dest_size) with (k + 1)%nat by (unfold k; lia).
  rewrite repeat_app, skipn_app, repeat_length, Nat.sub_diag.
  rewrite skipn_all2 by (rewrite repeat_length; lia). reflexivity.
Qed.

Lemma copy_cstr_length (dest : list char) (dest_size : Z) (src : std_string) :
  0 < dest_size < 2 ^ SIZE_WIDTH ->
  List.length dest = Z.to_nat dest_size ->
  List.length (Nsq.copy_cstr dest dest_size src) = List.length dest.
Proof.
  intros Hsize Hlen. rewrite copy_cstr_eq by assumption. cbv zeta.
  rewrite !length_app, length_firstn, repeat_length. cbn [List.length]. lia.
Qed.

Lemma copy_cstr_reads_back (dest : list char) (dest_size : Z)
    (src : std_string) :
  0 < dest_size < 2 ^ SIZE_WIDTH ->
  List.length dest = Z.to_nat dest_size ->
  string_of_cstr (Nsq.copy_cstr dest dest_size src) =
  Some (firstn (Z.to_nat dest_size - 1) (until_nul src)).
Proof.
  intros Hsize Hlen. rewrite copy_cstr_eq by assumption. cbv zeta.
  rewrite <- repeat_snoc. cbn [repeat].
  apply string_of_cstr_app, firstn_no_nul, until_nul_no_nul.
Qed.

Lemma copy_cstr_nul_terminated (dest : list char) (dest_size : Z)
    (src : std_string) :
  0 < dest_size < 2 ^ SIZE_WIDTH ->
  List.length dest = Z.to_nat dest_size ->
  nul_terminated (Nsq.copy_cstr dest dest_size src).
Proof.
  intros Hsize Hlen. rewrite copy_cstr_eq by assumption. cbv zeta.
  rewrite app_assoc. apply nul_terminated_snoc.
Qed.

(** [strncpy(arr, v.c_str(), sizeof(arr))], the CTP setters' store. *)
Lemma strncpy_sizeof_eq (arr : list char) (v : std_string) :
  let n := List.length arr in
  strncpy arr (c_str v) (Ctp.sizeof arr) =
  firstn n (until_nul v) ++ repeat NUL (n - List.length (until_nul v)).
Proof.
  intros n. unfold strncpy, Ctp.sizeof. rewrite Nat2Z.id.
  rewrite skipn_all, app_nil_r, strncpy_chars_spec, until_nul_c_str.
  reflexivity.
Qed.

(** When the C string is shorter than the array, it fits with its NUL. *)
Lemma strncpy_sizeof_fits (arr : list char) (v : std_string) :
  (List.length (until_nul v) < List.length arr)%nat ->
  string_of_cstr (strncpy arr (c_str v) (Ctp.sizeof arr)) = Some (until_nul v)
  /\ nul_terminated (strncpy arr (c_str v) (Ctp.sizeof arr)).
Proof.
  intros Hlt. rewrite strncpy_sizeof_eq. cbv zeta.
  rewrite firstn_all2 by lia.
  destruct (List.length arr - List.length (until_nul v))%nat as [|m] eqn:Hm;
    [lia|].
  split.
  - cbn [repeat]. apply string_of_cstr_app, until_nul_no_nul.
  - rewrite repeat_snoc, app_assoc. apply nul_terminated_snoc.
Qed.

(** When it is not, the array is filled and holds no NUL at all. *)
Lemma strncpy_sizeof_overlong (arr : list char) (v : std_string) :
  (List.length arr <= List.length (until_nul v))%nat ->
  strncpy arr (c_str v) (Ctp.sizeof arr) =
    firstn (List.length arr) (until_nul v)
  /\ ~ In NUL (strncpy arr (c_str v) (Ctp.sizeof arr))
  /\ string_of_cstr (strncpy arr (c_str v) (Ctp.sizeof arr)) = None.
Proof.
  intros Hle. rewrite strncpy_sizeof_eq. cbv zeta.
  replace (List.length arr - List.length (until_nul v))%nat with 0%nat by lia.
  cbn [repeat]. rewrite app_nil_r.
  assert (Hno : ~ In NUL (firstn (List.length arr) (until_nul v)))
    by apply firstn_no_nul, until_nul_no_nul.
  split; [reflexivity|]. split; [exact Hno|].
  now apply string_of_cstr_none.
Qed.

End SetterFacts.

(** ** Storing a string into a request record and reading it back *)

Module SetGet.
Import C Bind Spec CFacts SetterFacts.

Lemma truncated_short (v : std_string) (size : nat) :
  (List.length v < size)%nat -> truncated v size = v.
Proof. intros H. unfold truncated. apply firstn_all2. lia. Qed.

Lemma nsq_store_reads_back (arr : list char) (v : std_string) :
  array_size_ok arr ->
  reads_back_as (Nsq.copy_cstr arr (Nsq.sizeof arr) v)
    (return_string (Nsq.copy_cstr arr (Nsq.sizeof arr) v))
    (truncated (until_nul v) (List.length arr)).
Proof.
  unfold array_size_ok, Nsq.sizeof, reads_back_as, return_string, truncated.
  intros Hsize. split.
  - rewrite copy_cstr_reads_back by (rewrite ?Nat2Z.id; auto).
    now rewrite Nat2Z.id.
  - apply copy_cstr_nul_terminated; rewrite ?Nat2Z.id; auto.
Qed.

Lemma ctp_store_reads_back (arr : list char) (v : std_string) :
  (List.length (until_nul v) < List.length arr)%nat ->
  reads_back_as (strncpy arr (c_str v) (Ctp.sizeof arr))
    (return_string (strncpy arr (c_str v) (Ctp.sizeof arr)))
    (until_nul v).
Proof.
  intros Hlt. destruct (strncpy_sizeof_fits arr v Hlt) as [Hread Hterm].
  unfold reads_back_as, return_string. now rewrite Hread.
Qed.

Section Laws.
Context {T : Type}.
Variables (m : T -> list char) (set : T -> std_string -> T)
  (get : T -> option value).

Lemma truncating_round_trip (v : std_string) :
  ~ In NUL v -> truncating_store m set get v -> round_trip m set get v.
Proof.
  intros Hv Hstore f Hsize Hlt. destruct (Hstore f Hsize) as [E _].
  rewrite E, until_nul_id by assumption. now rewrite truncated_short.
Qed.

Lemma fitting_round_trip (v : std_string) :
  ~ In NUL v -> fitting_store m set get v -> round_trip m set get v.
Proof.
  intros Hv Hstore f _ Hlt. destruct (Hstore f) as [E _].
  - now rewrite until_nul_id.
  - rewrite E. now rewrite until_nul_id.
Qed.

End Laws.

Module NsqReq := Nsq.CHSNsqReqUserLoginField.
Module NsqB := Nsq.ReqUserLoginBinding.
Module CtpReq := Ctp.CThostFtdcReqUserLoginField.
Module CtpB := Ctp.ReqUserLoginBinding.

Lemma nsq_AccountID_store v :
  truncating_store NsqReq.AccountID NsqB.set_AccountID NsqB.get_AccountID v.
Proof. intros f H. apply nsq_store_reads_back, H. Qed.

Lemma nsq_Password_store v :
  truncating_store NsqReq.Password NsqB.set_Password NsqB.get_Password v.
Proof. intros f H. apply nsq_store_reads_back, H. Qed.

Lemma ctp_BrokerID_store v :
  fitting_store CtpReq.BrokerID CtpB.set_BrokerID CtpB.get_BrokerID v.
Proof. intros f H. apply ctp_store_reads_back, H. Qed.

Lemma ctp_UserID_store v :
  fitting_store CtpReq.UserID CtpB.set_UserID CtpB.get_UserID v.
Proof. intros f H. apply ctp_store_reads_back, H. Qed.

Lemma ctp_Password_store v :
  fitting_store CtpReq.Password CtpB.set_Password CtpB.get_Password v.
Proof. intros f H. apply ctp_store_reads_back, H. Qed.

(** C3 (as amended): for the two NSQ setters and every string [v], reading
    the member back after setting it to [v] yields the part of [v] before its
    first NUL, cut to at most (member size - 1) chars, and the array ends in
    NUL; for the three CTP setters the same holds when that part of [v] is
    shorter than the member; and for all five, set-then-get is the identity on
    a [v] with no NUL in it that is shorter than the member. *)
Theorem string_setters_read_back (v : std_string) :
  (truncating_store NsqReq.AccountID NsqB.set_AccountID NsqB.get_AccountID v
   /\ truncating_store NsqReq.Password NsqB.set_Password NsqB.get_Password v)
  /\ (fitting_store CtpReq.BrokerID CtpB.set_BrokerID CtpB.get_BrokerID v
      /\ fitting_store CtpReq.UserID CtpB.set_UserID CtpB.get_UserID v
      /\ fitting_store CtpReq.Password CtpB.set_Password CtpB.get_Password v)
  /\ (~ In NUL v ->
      round_trip NsqReq.AccountID NsqB.set_AccountID NsqB.get_AccountID v
      /\ round_trip NsqReq.Password NsqB.set_Password NsqB.get_Password v
      /\ round_trip CtpReq.BrokerID CtpB.set_BrokerID CtpB.get_BrokerID v
      /\ round_trip CtpReq.UserID CtpB.set_UserID CtpB.get_UserID v
      /\ round_trip CtpReq.Password CtpB.set_Password CtpB.get_Password v).
Proof.
  split; [split; [apply nsq_AccountID_store | apply nsq_Password_store]|].
  split.
  - split; [apply ctp_BrokerID_store|].
    split; [apply ctp_UserID_store | apply ctp_Password_store].
  - intros Hv.
    split; [apply truncating_round_trip, nsq_AccountID_store; exact Hv|].
    split; [apply truncating_round_trip, nsq_Password_store; exact Hv|].
    split; [apply fitting_round_trip, ctp_BrokerID_store; exact Hv|].
    split; [apply fitting_round_trip, ctp_UserID_store; exact Hv|].
    apply fitting_round_trip, ctp_Password_store; exact Hv.
Qed.

(** Reading back "9999" from an 11-char BrokerID and a 19-char AccountID. *)
Lemma string_setters_read_back_witness :
  let v := list_ascii_of_string "9999" in
  let f := Samples.ctp_req in
  let g := Samples.nsq_req in
  CtpB.get_BrokerID (CtpB.set_BrokerID f v) = Some (VString v)
  /\ NsqB.get_AccountID (NsqB.set_AccountID g v) = Some (VString v).
Proof.
  intros v f g.
  destruct (string_setters_read_back v) as (_ & _ & Hid).
  destruct Hid as (Hacc & _ & Hbroker & _).
  - vm_compute. intuition discriminate.
  - split.
    + apply Hbroker; [vm_compute; split; reflexivity | simpl; lia].
    + apply Hacc; [vm_compute; split; reflexivity | simpl; lia].
Defined.

(** The claim as written fails twice.  An 11-char string set into an 11-char
    BrokerID is not cut to 10 chars: it fills the array, which then holds no
    NUL and cannot be read back.  And a 3-char string with a NUL in the middle,
    set into a 19-char AccountID, reads back as its first char only. *)
Lemma string_setters_claim_fails :
  let v := list_ascii_of_string "ABCDEFGHIJK" in
  let f := Samples.ctp_req in
  let w := ["a"; NUL; "b"]%char in
  let g := Samples.nsq_req in
  ~ reads_back_as (CtpReq.BrokerID (CtpB.set_BrokerID f v))
      (CtpB.get_BrokerID (CtpB.set_BrokerID f v)) (truncated v 11)
  /\ CtpReq.BrokerID (CtpB.set_BrokerID f v) = v
  /\ CtpB.get_BrokerID (CtpB.set_BrokerID f v) = None
  /\ ~ round_trip NsqReq.AccountID NsqB.set_AccountID NsqB.get_AccountID w
  /\ NsqB.get_AccountID (NsqB.set_AccountID g w) = Some (VString ["a"%char]).
Proof.
  intros v f w g. split; [|split; [|split; [|split]]].
  - intros [H _]. vm_compute in H. discriminate H.
  - reflexivity.
  - reflexivity.
  - intros H. specialize (H g). vm_compute in H.
    assert (E : Some (VString ["a"%char]) = Some (VString ["a"; NUL; "b"]%char)).
    { apply H; [split; reflexivity | lia]. }
    discriminate E.
  - reflexivity.
Qed.

End SetGet.

(** ** The session wrappers [PyMdApi] and [PyNsqApi] *)

Module SessionFacts.
Import C Eff Bind Spec CFacts SetterFacts.

(** Unfold a run of the monad down to its pairs. *)
Ltac run_eff :=
  cbv [bind ret get put call result state trace fst snd].

Lemma non_null_true (p : ptr) : p <> nullptr -> non_null p = true.
Proof.
  unfold non_null, nullptr. intros H.
  destruct (Z.eqb_spec p 0); [contradiction | reflexivity].
Qed.

Lemma non_null_nullptr : non_null nullptr = false.
Proof. reflexivity. Qed.

Lemma to_int_small (z : Z) : 0 <= z < 2 ^ 31 -> to_int z = z.
Proof. intros H. unfold to_int. rewrite Z.mod_small; lia. Qed.

Lemma ctp_passes_through (m : Ctp.Session.method) :
  passes_through Ctp.PyMdApi.api (@Ctp.Session.target)
    (@Ctp.Session.returned) (Ctp.Session.return_type m)
    (Ctp.Session.invoke m).
Proof.
  intros sdk [api] t r. subst r.
  destruct m; cbn [Ctp.Session.invoke Ctp.Session.return_type];
    unfold Ctp.PyMdApi.RegisterSpi, Ctp.PyMdApi.RegisterFront,
      Ctp.PyMdApi.Init, Ctp.PyMdApi.Join, Ctp.PyMdApi.ReqUserLogin,
      Ctp.PyMdApi.SubscribeMarketData;
    run_eff; cbn [Ctp.PyMdApi.api];
    (destruct (non_null api) eqn:Hnn; cbn [negb];
     (split; [reflexivity|]); split; intros Hapi;
     try (subst api; rewrite non_null_nullptr in Hnn; discriminate Hnn);
     try (rewrite (non_null_true _ Hapi) in Hnn; discriminate Hnn);
     try (split; reflexivity)).
  all: eexists; eexists; split; [|split; reflexivity]; reflexivity.
Qed.

Lemma nsq_passes_through (sx si : Z) (m : Nsq.Session.method) :
  passes_through Nsq.PyNsqApi.api_ (@Nsq.Session.target)
    (@Nsq.Session.returned) (Nsq.Session.return_type m)
    (Nsq.Session.invoke sx si m).
Proof.
  intros sdk [api] t r. subst r.
  destruct m; cbn [Nsq.Session.invoke Nsq.Session.return_type];
    unfold Nsq.PyNsqApi.RegisterSpi, Nsq.PyNsqApi.RegisterFront,
      Nsq.PyNsqApi.Init, Nsq.PyNsqApi.ReqUserLogin,
      Nsq.PyNsqApi.GetApiErrorMsg,
      Nsq.PyNsqApi.ReqFutuDepthMarketDataSubscribe,
      Nsq.PyNsqApi.SubscribeMarket;
    run_eff; cbn [Nsq.PyNsqApi.api_];
    (destruct (non_null api) eqn:Hnn; cbn [negb];
     (split; [reflexivity|]); split; intros Hapi;
     try (subst api; rewrite non_null_nullptr in Hnn; discriminate Hnn);
     try (rewrite (non_null_true _ Hapi) in Hnn; discriminate Hnn);
     try (split; reflexivity)).
  all: eexists; eexists; split; [|split; reflexivity]; reflexivity.
Qed.

(** C2: every session method of [PyMdApi] and of [PyNsqApi] leaves the
    wrapper as it is; when the handle is null it makes no SDK call and returns
    -1 (an int method), nothing (a void method) or the empty string
    ([GetApiErrorMsg]); when the handle is not null it makes one SDK call on
    that handle and returns the SDK's answer. *)
Theorem session_methods_pass_through :
  (forall m : Ctp.Session.method,
      passes_through Ctp.PyMdApi.api (@Ctp.Session.target)
        (@Ctp.Session.returned) (Ctp.Session.return_type m)
        (Ctp.Session.invoke m))
  /\ (forall (sizeof_ExchangeID sizeof_InstrumentID : Z)
        (m : Nsq.Session.method),
      passes_through Nsq.PyNsqApi.api_ (@Nsq.Session.target)
        (@Nsq.Session.returned) (Nsq.Session.return_type m)
        (Nsq.Session.invoke sizeof_ExchangeID sizeof_InstrumentID m)).
Proof.
  split.
  - exact ctp_passes_through.
  - exact nsq_passes_through.
Qed.

(** [Join] without a handle returns -1 and asks nothing; with the handle
    4096 it asks the SDK once and returns its answer, 7. *)
Lemma session_methods_pass_through_witness :
  let none := {| Ctp.PyMdApi.api := nullptr |} in
  let some := {| Ctp.PyMdApi.api := 4096 |} in
  (trace (Ctp.Session.invoke Ctp.Session.Join Samples.ctp_sdk none []) = []
   /\ result (Ctp.Session.invoke Ctp.Session.Join Samples.ctp_sdk none [])
      = RInt (-1))
  /\ exists R (e : Ctp.Sdk.MdApiE R),
      trace (Ctp.Session.invoke Ctp.Session.Join Samples.ctp_sdk some [])
      = [Called e]
      /\ result (Ctp.Session.invoke Ctp.Session.Join Samples.ctp_sdk some [])
         = Ctp.Session.returned e (Samples.ctp_sdk [] R e).
Proof.
  intros none some.
  destruct session_methods_pass_through as [Hctp _].
  split.
  - destruct (Hctp Ctp.Session.Join Samples.ctp_sdk none []) as (_ & Hnull & _).
    apply Hnull. reflexivity.
  - destruct (Hctp Ctp.Session.Join Samples.ctp_sdk some []) as (_ & _ & Hsome).
    destruct Hsome as (R & e & _ & Htrace & Hres); [discriminate|].
    exists R, e. split; assumption.
Defined.

(** *** Creation *)

(** C9: [PyMdApi] is created by one call of [CreateFtdcMdApi] with the flow
    path and holds the handle it returns; [PyNsqApi] is created by one call of
    [NewNsqApi] with the flow path when the configuration path is empty, and
    by one call of [NewNsqApiExt] with both paths otherwise. *)
Theorem creation_dispatch :
  (forall sdk t flow_path,
      let r := Ctp.PyMdApi.ctor flow_path sdk tt t in
      let e := Ctp.Sdk.CreateFtdcMdApi (c_str flow_path) in
      trace r = t ++ [Called e]
      /\ Ctp.PyMdApi.api (result r) = sdk t ptr e)
  /\ (forall sdk t flow_path,
      let r := Nsq.PyNsqApi.ctor flow_path [] sdk tt t in
      let e := Nsq.Sdk.NewNsqApi (c_str flow_path) in
      trace r = t ++ [Called e]
      /\ Nsq.PyNsqApi.api_ (result r) = sdk t ptr e)
  /\ (forall sdk t flow_path c cfg,
      let r := Nsq.PyNsqApi.ctor flow_path (c :: cfg) sdk tt t in
      let e := Nsq.Sdk.NewNsqApiExt (c_str flow_path) (c_str (c :: cfg)) in
      trace r = t ++ [Called e]
      /\ Nsq.PyNsqApi.api_ (result r) = sdk t ptr e).
Proof.
  split; [|split]; intros; subst r e.
  - unfold Ctp.PyMdApi.ctor. run_eff. split; reflexivity.
  - unfold Nsq.PyNsqApi.ctor. run_eff. split; reflexivity.
  - unfold Nsq.PyNsqApi.ctor. run_eff. split; reflexivity.
Qed.

(** *** Release by the destructors *)

(** [~PyMdApi] releases a handle once: it calls [Release] when it holds a
    handle, leaves the wrapper with a null handle, and run again it asks the
    SDK nothing. *)
Lemma PyMdApi_dtor_once sdk sdk' (this : Ctp.PyMdApi.t) t :
  let r := Ctp.PyMdApi.dtor sdk this t in
  Ctp.PyMdApi.api (state r) = nullptr
  /\ trace r = t ++ (if non_null (Ctp.PyMdApi.api this)
                     then [Called (Ctp.Sdk.Release (Ctp.PyMdApi.api this))]
                     else [])
  /\ trace (Ctp.PyMdApi.dtor sdk' (state r) (trace r)) = trace r.
Proof.
  destruct this as [api]. unfold Ctp.PyMdApi.dtor. run_eff.
  cbn [Ctp.PyMdApi.api]. destruct (non_null api) eqn:Hnn; cbn.
  - auto.
  - rewrite Hnn, app_nil_r. repeat split.
    unfold non_null in Hnn. apply negb_false_iff, Z.eqb_eq in Hnn. exact Hnn.
Qed.

(** [~PyNsqApi] does the same with [ReleaseApi]. *)
Lemma PyNsqApi_dtor_once sdk sdk' (this : Nsq.PyNsqApi.t) t :
  let r := Nsq.PyNsqApi.dtor sdk this t in
  Nsq.PyNsqApi.api_ (state r) = nullptr
  /\ trace r = t ++ (if non_null (Nsq.PyNsqApi.api_ this)
                     then [Called (Nsq.Sdk.ReleaseApi (Nsq.PyNsqApi.api_ this))]
                     else [])
  /\ trace (Nsq.PyNsqApi.dtor sdk' (state r) (trace r)) = trace r.
Proof.
  destruct this as [api]. unfold Nsq.PyNsqApi.dtor. run_eff.
  cbn [Nsq.PyNsqApi.api_]. destruct (non_null api) eqn:Hnn; cbn.
  - auto.
  - rewrite Hnn, app_nil_r. repeat split.
    unfold non_null in Hnn. apply negb_false_iff, Z.eqb_eq in Hnn. exact Hnn.
Qed.

End SessionFacts.

(** ** Subscription: one SDK entry per requested instrument *)

Module SubscribeFacts.
Import C Eff Bind Spec CFacts SetterFacts SessionFacts.
Import Nsq.CHSNsqReqFutuDepthMarketDataField.

(** The [push_back] loop of [PyMdApi::SubscribeMarketData]. *)
Lemma push_back_loop {A B} (f : A -> B) (l : list A) (acc : list B) :
  fold_left (fun p s => p ++ [f s]) l acc = acc ++ map f l.
Proof.
  revert acc. induction l as [|x l IH]; intros acc; cbn [fold_left map].
  - now rewrite app_nil_r.
  - rewrite IH, <- app_assoc. reflexivity.
Qed.

Lemma assign_middle {A} (l1 l2 : list A) (x y : A) :
  Nsq.PyNsqApi.assign (l1 ++ x :: l2) (List.length l1) y = l1 ++ y :: l2.
Proof.
  induction l1 as [|a l1 IH]; cbn [app List.length Nsq.PyNsqApi.assign].
  - reflexivity.
  - now rewrite IH.
Qed.

Section Layout.
Variables sizeof_ExchangeID sizeof_InstrumentID : Z.

Local Abbreviation zeroed :=
  (Nsq.PyNsqApi.zeroed sizeof_ExchangeID sizeof_InstrumentID).
Local Abbreviation fill_req :=
  (Nsq.PyNsqApi.fill_req sizeof_ExchangeID sizeof_InstrumentID).
Local Abbreviation req_of := (Spec.req_of sizeof_ExchangeID sizeof_InstrumentID).

(** After [k] rounds the first [k] records are filled and the rest are still
    zeroed. *)
Lemma fill_loop_invariant (contracts : list (std_string * std_string))
    (k : nat) :
  (k <= List.length contracts)%nat ->
  fold_left (fill_req contracts) (seq 0 k)
    (repeat zeroed (List.length contracts))
  = map req_of (firstn k contracts)
      ++ repeat zeroed (List.length contracts - k).
Proof.
  induction k as [|k IH]; intros Hk.
  - cbn [seq fold_left firstn map app]. now rewrite Nat.sub_0_r.
  - rewrite seq_S, fold_left_app, IH by lia. cbn [Nat.add fold_left].
    destruct (nth_error contracts k) as [c|] eqn:Hc;
      [|apply nth_error_None in Hc; lia].
    assert (Hfirst : firstn (S k) contracts = firstn k contracts ++ [c]).
    { rewrite <- (firstn_skipn k contracts) at 1.
      assert (Hskip : skipn k contracts = c :: skipn (S k) contracts).
      { clear - Hc. revert contracts Hc.
        induction k as [|k IHk]; intros [|x l] Hc; try discriminate.
        - injection Hc as ->. reflexivity.
        - cbn [nth_error] in Hc. cbn [skipn]. now apply IHk. }
      rewrite Hskip, firstn_app, length_firstn.
      replace (S k - Nat.min k (List.length contracts))%nat with 1%nat by lia.
      rewrite firstn_all2 by (rewrite length_firstn; lia).
      reflexivity. }
    assert (Hlen : List.length (map req_of (firstn k contracts)) = k)
      by (rewrite length_map, length_firstn; lia).
    replace (List.length contracts - k)%nat
      with (S (List.length contracts - S k)) by lia.
    cbn [repeat]. unfold Nsq.PyNsqApi.fill_req. rewrite Hc.
    rewrite nth_error_app2 by lia. rewrite Hlen, Nat.sub_diag.
    cbn [nth_error]. rewrite <- Hlen at 3. rewrite assign_middle.
    rewrite Hfirst, map_app, <- app_assoc. reflexivity.
Qed.

Lemma fill_loop (contracts : list (std_string * std_string)) :
  fold_left (fill_req contracts) (seq 0 (List.length contracts))
    (repeat zeroed (List.length contracts))
  = map req_of contracts.
Proof.
  rewrite fill_loop_invariant by lia.
  now rewrite firstn_all, Nat.sub_diag, app_nil_r.
Qed.

End Layout.

Lemma req_of_holds (sx si : Z) (c : std_string * std_string) :
  0 < sx < 2 ^ SIZE_WIDTH -> 0 < si < 2 ^ SIZE_WIDTH ->
  holds sx si c (req_of sx si c).
Proof.
  intros Hx Hi. unfold holds, Spec.req_of, truncated.
  cbn [ExchangeID InstrumentID].
  split; apply copy_cstr_reads_back; auto using repeat_length.
Qed.

(** C4: on a handle, [PyMdApi::SubscribeMarketData] makes one SDK call with
    one C string per symbol, in order, and a count equal to the number of
    symbols; [PyNsqApi::ReqFutuDepthMarketDataSubscribe] makes one SDK call
    with one record per (exchange, instrument) pair, in order, holding the
    first component in ExchangeID and the second in InstrumentID, and a count
    equal to the number of pairs.  (The count is an [int]: fewer than 2^31
    entries.) *)
Theorem subscribe_one_entry_per_instrument :
  (forall sdk (this : Ctp.PyMdApi.t) t (symbols : list std_string),
      Ctp.PyMdApi.api this <> nullptr ->
      Z.of_nat (List.length symbols) < 2 ^ 31 ->
      let r := Ctp.PyMdApi.SubscribeMarketData symbols sdk this t in
      let e := Ctp.Sdk.SubscribeMarketData (Ctp.PyMdApi.api this)
                 (map c_str symbols) (Z.of_nat (List.length symbols)) in
      List.length (map c_str symbols) = List.length symbols
      /\ trace r = t ++ [Called e]
      /\ result r = sdk t Z e)
  /\ (forall sizeof_ExchangeID sizeof_InstrumentID sdk (this : Nsq.PyNsqApi.t)
        t (contracts : list (std_string * std_string)) request_id,
      Nsq.PyNsqApi.api_ this <> nullptr ->
      0 < sizeof_ExchangeID < 2 ^ SIZE_WIDTH ->
      0 < sizeof_InstrumentID < 2 ^ SIZE_WIDTH ->
      Z.of_nat (List.length contracts) < 2 ^ 31 ->
      let r := Nsq.PyNsqApi.ReqFutuDepthMarketDataSubscribe
                 sizeof_ExchangeID sizeof_InstrumentID contracts request_id
                 sdk this t in
      exists reqs,
        let e := Nsq.Sdk.ReqFutuDepthMarketDataSubscribe
                   (Nsq.PyNsqApi.api_ this) reqs
                   (Z.of_nat (List.length contracts)) request_id in
        List.length reqs = List.length contracts
        /\ Forall2 (holds sizeof_ExchangeID sizeof_InstrumentID) contracts reqs
        /\ trace r = t ++ [Called e]
        /\ result r = sdk t Z e).
Proof.
  split.
  - intros sdk [api] t symbols Hapi Hcount r e. subst r e.
    cbn [Ctp.PyMdApi.api] in *.
    unfold Ctp.PyMdApi.SubscribeMarketData. run_eff. cbn [Ctp.PyMdApi.api].
    rewrite (non_null_true _ Hapi). cbn [negb].
    rewrite push_back_loop. cbn [app].
    rewrite length_map, to_int_small by lia. auto.
  - intros sx si sdk [api] t contracts id Hapi Hx Hi Hcount r. subst r.
    cbn [Nsq.PyNsqApi.api_] in *.
    exists (map (req_of sx si) contracts).
    unfold Nsq.PyNsqApi.ReqFutuDepthMarketDataSubscribe. run_eff.
    cbn [Nsq.PyNsqApi.api_]. rewrite (non_null_true _ Hapi). cbn [negb].
    rewrite fill_loop, length_map, to_int_small by lia.
    split; [reflexivity|]. split; [|auto].
    clear Hcount. induction contracts as [|c l IH]; cbn [map]; constructor.
    + now apply req_of_holds.
    + exact IH.
Qed.

(** Two symbols and two contracts, on the sample SDKs. *)
Lemma subscribe_one_entry_per_instrument_witness :
  let rb := list_ascii_of_string "rb2505" in
  let ag := list_ascii_of_string "ag2506" in
  let f3 := list_ascii_of_string "F3" in
  trace (Ctp.PyMdApi.SubscribeMarketData [rb; ag] Samples.ctp_sdk
           {| Ctp.PyMdApi.api := 4096 |} [])
  = [Called (Ctp.Sdk.SubscribeMarketData 4096 [c_str rb; c_str ag] 2)]
  /\ exists reqs,
      Forall2 (holds 5 32) [(f3, rb); (f3, ag)] reqs
      /\ trace (Nsq.PyNsqApi.ReqFutuDepthMarketDataSubscribe 5 32
                  [(f3, rb); (f3, ag)] 1 Samples.nsq_sdk
                  {| Nsq.PyNsqApi.api_ := 8192 |} [])
         = [Called (Nsq.Sdk.ReqFutuDepthMarketDataSubscribe 8192 reqs 2 1)].
Proof.
  intros rb ag f3.
  destruct subscribe_one_entry_per_instrument as [Hctp Hnsq]. split.
  - destruct (Hctp Samples.ctp_sdk {| Ctp.PyMdApi.api := 4096 |} [] [rb; ag])
      as (_ & Htrace & _); [discriminate | reflexivity | exact Htrace].
  - destruct (Hnsq 5 32 Samples.nsq_sdk {| Nsq.PyNsqApi.api_ := 8192 |} []
                [(f3, rb); (f3, ag)] 1)
      as (reqs & _ & Hholds & Htrace & _);
      [discriminate | split; reflexivity | split; reflexivity | reflexivity |].
    exists reqs. split; assumption.
Defined.

End SubscribeFacts.

(** ** The trampolines [PyMdSpi] and [PyNsqSpi] *)

Module TrampolineFacts.
Import C Eff Bind Spec SessionFacts.

Lemma get_override_spec (self : py_self) (fn : string) :
  get_override self fn = true <-> In fn (py_methods self).
Proof.
  unfold get_override. rewrite existsb_exists. split.
  - intros (x & Hin & Heq). apply String.eqb_eq in Heq. now subst.
  - intros Hin. exists fn. split; [exact Hin | apply String.eqb_refl].
Qed.

Lemma overload_forwards (fn : string) (args : list arg) :
  forwards (PYBIND11_OVERLOAD fn args) fn args.
Proof.
  intros sdk self t r. subst r. unfold PYBIND11_OVERLOAD. run_eff.
  destruct (get_override self fn) eqn:Hov.
  - apply get_override_spec in Hov. repeat split; tauto.
  - assert (Hnot : ~ In fn (py_methods self)).
    { intros Hin. apply get_override_spec in Hin. congruence. }
    repeat split; tauto.
Qed.

(** C5: every callback that [PyMdSpi] or [PyNsqSpi] overrides forwards its
    arguments, unchanged and in order, to the script object's method of the
    same name when the object has one, and to the vendor base class method of
    the same name otherwise. *)
Theorem trampolines_forward :
  (forall cb : Ctp.Callback.t,
      forwards (Ctp.Callback.fire cb) (Ctp.Callback.name cb)
        (Ctp.Callback.args cb))
  /\ (forall cb : Nsq.Callback.t,
      forwards (Nsq.Callback.fire cb) (Nsq.Callback.name cb)
        (Nsq.Callback.args cb)).
Proof.
  split; intros cb; destruct cb; apply overload_forwards.
Qed.

(** A login response reaches a script that defines [OnRspUserLogin], and
    goes to the base class for a script that does not. *)
Lemma trampolines_forward_witness :
  let cb := Ctp.Callback.OnRspUserLogin 100 200 1 true in
  let args := [APtr 100; APtr 200; AInt 1; ABool true] in
  trace (Ctp.Callback.fire cb Samples.spi_sdk
           {| py_methods := ["OnFrontConnected"; "OnRspUserLogin"]%string |} [])
  = [Called (Override "OnRspUserLogin" args)]
  /\ trace (Ctp.Callback.fire cb Samples.spi_sdk
              {| py_methods := ["OnFrontConnected"]%string |} [])
     = [Called (Base "OnRspUserLogin" args)].
Proof.
  intros cb args. destruct trampolines_forward as [Hctp _]. split.
  - destruct (Hctp cb Samples.spi_sdk
                {| py_methods := ["OnFrontConnected"; "OnRspUserLogin"]%string |} [])
      as (_ & Hyes & _).
    apply Hyes. cbn. auto.
  - destruct (Hctp cb Samples.spi_sdk
                {| py_methods := ["OnFrontConnected"]%string |} [])
      as (_ & _ & Hno).
    apply Hno. cbn. intros [H|[]]. discriminate H.
Defined.

End TrampolineFacts.

(** ** The read accessors of the bound records *)

Module AccessorFacts.
Import C Bind Spec CFacts.

Section Conv.
Variable int_to_double : Z -> float.

Local Abbreviation to_double :=
  (Nsq.FutuDepthMarketDataBinding.to_double int_to_double).
Local Abbreviation five_levels :=
  (Nsq.FutuDepthMarketDataBinding.five_levels int_to_double).
Local Abbreviation shows := (Spec.shows int_to_double).
Local Abbreviation reads_members := (Spec.reads_members int_to_double).

Lemma return_string_shows (arr : list char) :
  shows (MChars arr) (return_string arr).
Proof.
  intros s rest -> Hs. unfold return_string.
  now rewrite string_of_cstr_app.
Qed.

(** The loop of the four ladder accessors, on an array of five entries or
    more. *)
Lemma five_levels_eq (arr : list scalar) :
  (5 <= List.length arr)%nat ->
  five_levels arr = Some (map to_double (firstn 5 arr)).
Proof.
  intros Hlen.
  destruct arr as [|a [|b [|c [|d [|e rest]]]]]; cbn in Hlen; try lia.
  reflexivity.
Qed.

(** On a shorter array the loop reads past its end. *)
Lemma five_levels_short (arr : list scalar) :
  (List.length arr < 5)%nat -> five_levels arr = None.
Proof.
  intros Hlen.
  destruct arr as [|a [|b [|c [|d [|e rest]]]]]; cbn in Hlen; try lia;
    reflexivity.
Qed.

Lemma return_levels_shows (arr : list scalar) :
  shows (MArray arr)
    (Nsq.FutuDepthMarketDataBinding.return_levels int_to_double arr).
Proof.
  intros Hlen. unfold Nsq.FutuDepthMarketDataBinding.return_levels.
  now rewrite five_levels_eq.
Qed.

(** One accessor of a table: the record is returned as it was, the member of
    that name is found, and it is shown. *)
Ltac accessor :=
  split; [reflexivity|];
  eexists; split; [reflexivity|];
  first [ reflexivity | apply return_string_shows | apply return_levels_shows ].

Ltac table :=
  let name := fresh "name" in
  let g := fresh "g" in
  let Hin := fresh "Hin" in
  let f := fresh "f" in
  intros name g Hin f; cbn [In] in Hin;
  repeat (destruct Hin as [Hin|Hin]; [injection Hin as <- <-; accessor|]);
  contradiction.

Lemma ctp_RspInfo_reads :
  reads_members Ctp.RspInfoBinding.members Ctp.RspInfoBinding.bindings.
Proof. unfold Ctp.RspInfoBinding.bindings. table. Qed.

Lemma ctp_RspUserLogin_reads :
  reads_members Ctp.RspUserLoginBinding.members
    Ctp.RspUserLoginBinding.bindings.
Proof. unfold Ctp.RspUserLoginBinding.bindings. table. Qed.

Lemma ctp_ReqUserLogin_reads :
  reads_members Ctp.ReqUserLoginGetters.members
    Ctp.ReqUserLoginGetters.bindings.
Proof. unfold Ctp.ReqUserLoginGetters.bindings. table. Qed.

Lemma ctp_DepthMarketData_reads :
  reads_members Ctp.DepthMarketDataBinding.members
    Ctp.DepthMarketDataBinding.bindings.
Proof. unfold Ctp.DepthMarketDataBinding.bindings. table. Qed.

Lemma ctp_SpecificInstrument_reads :
  reads_members Ctp.SpecificInstrumentBinding.members
    Ctp.SpecificInstrumentBinding.bindings.
Proof. unfold Ctp.SpecificInstrumentBinding.bindings. table. Qed.

Lemma nsq_RspInfo_reads :
  reads_members Nsq.RspInfoBinding.members Nsq.RspInfoBinding.bindings.
Proof. unfold Nsq.RspInfoBinding.bindings. table. Qed.

Lemma nsq_ReqUserLogin_reads :
  reads_members Nsq.ReqUserLoginGetters.members
    Nsq.ReqUserLoginGetters.bindings.
Proof. unfold Nsq.ReqUserLoginGetters.bindings. table. Qed.

Lemma nsq_RspUserLogin_reads :
  reads_members Nsq.RspUserLoginBinding.members
    Nsq.RspUserLoginBinding.bindings.
Proof. unfold Nsq.RspUserLoginBinding.bindings. table. Qed.

Lemma nsq_FutuDepthMarketData_reads :
  reads_members Nsq.FutuDepthMarketDataBinding.members
    (Nsq.FutuDepthMarketDataBinding.bindings int_to_double).
Proof. unfold Nsq.FutuDepthMarketDataBinding.bindings. table. Qed.

End Conv.

(** C8: every read accessor of every bound record (CTP: response info, login
    response, login request, depth market data, specific instrument; NSQ:
    response info, login request, login response, futures depth market data)
    returns what the vendor member of the same name holds, a char array as the
    string of the chars before its first NUL, and leaves the record as it
    was. *)
Theorem accessors_read_members (int_to_double : Z -> float) :
  (reads_members int_to_double Ctp.RspInfoBinding.members
     Ctp.RspInfoBinding.bindings
   /\ reads_members int_to_double Ctp.RspUserLoginBinding.members
        Ctp.RspUserLoginBinding.bindings
   /\ reads_members int_to_double Ctp.ReqUserLoginGetters.members
        Ctp.ReqUserLoginGetters.bindings
   /\ reads_members int_to_double Ctp.DepthMarketDataBinding.members
        Ctp.DepthMarketDataBinding.bindings
   /\ reads_members int_to_double Ctp.SpecificInstrumentBinding.members
        Ctp.SpecificInstrumentBinding.bindings)
  /\ (reads_members int_to_double Nsq.RspInfoBinding.members
        Nsq.RspInfoBinding.bindings
      /\ reads_members int_to_double Nsq.ReqUserLoginGetters.members
           Nsq.ReqUserLoginGetters.bindings
      /\ reads_members int_to_double Nsq.RspUserLoginBinding.members
           Nsq.RspUserLoginBinding.bindings
      /\ reads_members int_to_double Nsq.FutuDepthMarketDataBinding.members
           (Nsq.FutuDepthMarketDataBinding.bindings int_to_double)).
Proof.
  split.
  - split; [apply ctp_RspInfo_reads|].
    split; [apply ctp_RspUserLogin_reads|].
    split; [apply ctp_ReqUserLogin_reads|].
    split; [apply ctp_DepthMarketData_reads | apply ctp_SpecificInstrument_reads].
  - split; [apply nsq_RspInfo_reads|].
    split; [apply nsq_ReqUserLogin_reads|].
    split; [apply nsq_RspUserLogin_reads | apply nsq_FutuDepthMarketData_reads].
Qed.

(** The ErrorMsg accessor on a response whose message array holds "bad", a
    NUL, and stale chars after it. *)
Lemma accessors_read_members_witness :
  let bad := list_ascii_of_string "bad" in
  let f := {| Ctp.CThostFtdcRspInfoField.ErrorID := SInt 3;
              Ctp.CThostFtdcRspInfoField.ErrorMsg :=
                bad ++ NUL :: list_ascii_of_string "old" ++ [NUL] |} in
  exists g,
    assoc "ErrorMsg" Ctp.RspInfoBinding.bindings = Some g
    /\ g f = (Some (VString bad), f).
Proof.
  intros bad f.
  destruct (accessors_read_members (fun _ => PrimFloat.zero))
    as [[Hinfo _] _].
  eexists. split; [reflexivity|].
  match goal with |- ?g _ = _ =>
    destruct (Hinfo "ErrorMsg"%string g) with (f := f) as (Hsame & m & Hm & Hshow)
  end.
  - cbn. auto.
  - cbn in Hm. injection Hm as <-.
    specialize (Hshow bad (list_ascii_of_string "old" ++ [NUL]) eq_refl).
    apply injective_projections; cbn [fst snd].
    + apply Hshow. vm_compute. intuition discriminate.
    + exact Hsame.
Defined.

Lemma five_levels_ladder (int_to_double : Z -> float) (arr : list scalar) :
  (5 <= List.length arr)%nat ->
  exists v,
    Nsq.FutuDepthMarketDataBinding.return_levels int_to_double arr
      = Some (VVector v)
    /\ List.length v = 5%nat
    /\ (forall i, (i < 5)%nat ->
          nth_error v i =
          option_map (Nsq.FutuDepthMarketDataBinding.to_double int_to_double)
            (nth_error arr i))
    /\ (forall ds, arr = map SDouble ds -> v = firstn 5 ds).
Proof.
  intros Hlen.
  exists (map (Nsq.FutuDepthMarketDataBinding.to_double int_to_double)
            (firstn 5 arr)).
  split; [|split; [|split]].
  - unfold Nsq.FutuDepthMarketDataBinding.return_levels.
    now rewrite five_levels_eq.
  - rewrite length_map, length_firstn. lia.
  - intros i Hi.
    destruct arr as [|a [|b [|c [|d [|e rest]]]]]; cbn in Hlen; try lia.
    do 5 (destruct i as [|i]; [reflexivity|]). lia.
  - intros ds ->. rewrite <- firstn_map, map_map. cbn. now rewrite map_id.
Qed.

(** C10: for every futures depth record whose four ladders hold five entries
    (or more), each of the accessors BidPrice, BidVolume, AskPrice and
    AskVolume returns a vector of exactly five elements, the i-th being the
    i-th entry of the vendor array of the same name as a double. *)
Theorem depth_ladders_five_levels (int_to_double : Z -> float)
    (f : Nsq.CHSNsqFutuDepthMarketDataField.t) :
  ladder int_to_double f "BidPrice"
    (Nsq.CHSNsqFutuDepthMarketDataField.BidPrice f)
  /\ ladder int_to_double f "BidVolume"
       (Nsq.CHSNsqFutuDepthMarketDataField.BidVolume f)
  /\ ladder int_to_double f "AskPrice"
       (Nsq.CHSNsqFutuDepthMarketDataField.AskPrice f)
  /\ ladder int_to_double f "AskVolume"
       (Nsq.CHSNsqFutuDepthMarketDataField.AskVolume f).
Proof.
  repeat split; intros Hlen;
    destruct (five_levels_ladder int_to_double _ Hlen) as (v & Hret & Hrest);
    eexists; exists v; (split; [reflexivity|]);
    (split; [|exact Hrest]);
    unfold def_property_readonly; now rewrite Hret.
Qed.

(** The BidPrice accessor on the sample record returns its five bid prices. *)
Lemma depth_ladders_five_levels_witness :
  exists g,
    assoc "BidPrice"
      (Nsq.FutuDepthMarketDataBinding.bindings (fun _ => PrimFloat.zero))
    = Some g
    /\ g Samples.nsq_depth
       = (Some (VVector Samples.bid_prices), Samples.nsq_depth).
Proof.
  destruct (depth_ladders_five_levels (fun _ => PrimFloat.zero)
              Samples.nsq_depth) as (Hbid & _).
  destruct Hbid as (g & v & Hg & Hrun & _ & _ & Hdoubles).
  - cbn. lia.
  - exists g. split; [exact Hg|].
    rewrite Hrun, (Hdoubles Samples.bid_prices eq_refl). reflexivity.
Defined.

End AccessorFacts.

(** ** exanic_pybind: capsules, frames, release *)

Module ExanicFacts.
Import C Eff Py Exanic Exanic.Sdk Spec CFacts SessionFacts.

Lemma to_size_t_small (z : Z) : 0 <= z < 2 ^ SIZE_WIDTH -> to_size_t z = z.
Proof. intros H. unfold to_size_t. now rewrite Z.mod_small. Qed.

(** A valid capsule is a capsule of that name with a pointer that is not
    null. *)
Lemma valid_capsule_inv (x : object) (name : string) :
  valid_capsule x name = true ->
  exists p, x = PyCapsule p (Some name) /\ p <> nullptr.
Proof.
  destruct x as [|p [n|]| |]; cbn; try discriminate;
    rewrite ?andb_false_r; try discriminate.
  intros H. apply andb_prop in H as [Hp Hn].
  apply String.eqb_eq in Hn. subst n. exists p. split; [reflexivity|].
  intros ->. discriminate Hp.
Qed.

Lemma valid_capsule_intro (p : ptr) (name : string) :
  p <> nullptr -> valid_capsule (PyCapsule p (Some name)) name = true.
Proof.
  intros Hp. cbn. rewrite (non_null_true _ Hp), String.eqb_refl. reflexivity.
Qed.

Section Runs.
Variables (sdk : oracle ExanicE) (s : interp) (t : list (event ExanicE)).

Lemma IsValid_run (o : objref) (name : string) :
  PyCapsule_IsValid o name sdk s t = (valid_capsule (heap s o) name, s, t).
Proof. reflexivity. Qed.

Lemma GetPointer_run (o : objref) (name : string) (p : ptr) :
  heap s o = PyCapsule p (Some name) -> p <> nullptr ->
  PyCapsule_GetPointer o name sdk s t = (p, s, t).
Proof.
  intros Ho Hp. unfold PyCapsule_GetPointer. run_eff. rewrite Ho.
  rewrite (non_null_true _ Hp). cbn. now rewrite String.eqb_refl.
Qed.

(** Asked to store a null pointer, [PyCapsule_SetPointer] fails, sets the
    error indicator and leaves every object as it was. *)
Lemma SetPointer_null_run (o : objref) :
  PyCapsule_SetPointer o nullptr sdk s t =
  (-1,
   {| heap := heap s;
      err := Some "PyCapsule_SetPointer called with null pointer"%string |},
   t).
Proof. reflexivity. Qed.

End Runs.

Lemma release_rx_buffer_run sdk s t (o : objref) (rx : ptr) :
  heap s o = PyCapsule rx (Some CAPSULE_EXANIC_RX) -> rx <> nullptr ->
  release_rx_buffer o sdk s t =
  (tt, after_release s, t ++ [Called (exanic_release_rx_buffer rx)]).
Proof.
  intros Ho Hrx. unfold release_rx_buffer, bind at 1.
  rewrite IsValid_run, Ho, valid_capsule_intro by assumption. cbn [negb].
  unfold bind at 1. rewrite (GetPointer_run sdk s t o _ rx Ho Hrx).
  reflexivity.
Qed.

Lemma release_handle_run sdk s t (o : objref) (nic : ptr) :
  heap s o = PyCapsule nic (Some CAPSULE_EXANIC) -> nic <> nullptr ->
  release_handle o sdk s t =
  (tt, after_release s, t ++ [Called (exanic_release_handle nic)]).
Proof.
  intros Ho Hnic. unfold release_handle, bind at 1.
  rewrite IsValid_run, Ho, valid_capsule_intro by assumption. cbn [negb].
  unfold bind at 1. rewrite (GetPointer_run sdk s t o _ nic Ho Hnic).
  reflexivity.
Qed.

(** Releasing a valid capsule twice releases the vendor object twice: the
    capsule is still valid after the first release. *)
Lemma release_rx_buffer_twice sdk s t (o : objref) :
  valid_capsule (heap s o) CAPSULE_EXANIC_RX = true ->
  exists rx,
    heap s o = PyCapsule rx (Some CAPSULE_EXANIC_RX)
    /\ trace (bind (release_rx_buffer o) (fun _ => release_rx_buffer o) sdk s t)
       = t ++ [Called (exanic_release_rx_buffer rx);
               Called (exanic_release_rx_buffer rx)].
Proof.
  intros Hvalid. destruct (valid_capsule_inv _ _ Hvalid) as (rx & Ho & Hrx).
  exists rx. split; [exact Ho|]. unfold bind.
  rewrite (release_rx_buffer_run sdk s t o rx Ho Hrx).
  rewrite (release_rx_buffer_run sdk (after_release s) _ o rx Ho Hrx).
  cbn [trace snd]. now rewrite <- app_assoc.
Qed.

Lemma release_handle_twice sdk s t (o : objref) :
  valid_capsule (heap s o) CAPSULE_EXANIC = true ->
  exists nic,
    heap s o = PyCapsule nic (Some CAPSULE_EXANIC)
    /\ trace (bind (release_handle o) (fun _ => release_handle o) sdk s t)
       = t ++ [Called (exanic_release_handle nic);
               Called (exanic_release_handle nic)].
Proof.
  intros Hvalid. destruct (valid_capsule_inv _ _ Hvalid) as (nic & Ho & Hnic).
  exists nic. split; [exact Ho|]. unfold bind.
  rewrite (release_handle_run sdk s t o nic Ho Hnic).
  rewrite (release_handle_run sdk (after_release s) _ o nic Ho Hnic).
  cbn [trace snd]. now rewrite <- app_assoc.
Qed.

(** C1, at a failing input: with the RX-buffer capsule 0 and the device
    capsule 1 of [Samples.interp0], releasing either capsule twice calls the
    vendor release function twice on the same pointer; after the first
    release the capsule still holds its pointer and an error is pending. *)
Theorem exanic_release_twice_calls_vendor_twice :
  trace (bind (release_rx_buffer 0%nat) (fun _ => release_rx_buffer 0%nat)
           Samples.exanic_sdk Samples.interp0 [])
  = [Called (exanic_release_rx_buffer 8192);
     Called (exanic_release_rx_buffer 8192)]
  /\ trace (bind (release_handle 1%nat) (fun _ => release_handle 1%nat)
              Samples.exanic_sdk Samples.interp0 [])
     = [Called (exanic_release_handle 4096);
        Called (exanic_release_handle 4096)]
  /\ heap (state (release_rx_buffer 0%nat Samples.exanic_sdk Samples.interp0 [])) 0%nat
     = PyCapsule 8192 (Some CAPSULE_EXANIC_RX)
  /\ err (state (release_rx_buffer 0%nat Samples.exanic_sdk Samples.interp0 []))
     = Some "PyCapsule_SetPointer called with null pointer"%string.
Proof.
  split; [|split; [|split]].
  - destruct (release_rx_buffer_twice Samples.exanic_sdk Samples.interp0 [] 0%nat)
      as (rx & Ho & Htrace); [reflexivity|].
    cbn in Ho. injection Ho as <-. exact Htrace.
  - destruct (release_handle_twice Samples.exanic_sdk Samples.interp0 [] 1%nat)
      as (nic & Ho & Htrace); [reflexivity|].
    cbn in Ho. injection Ho as <-. exact Htrace.
  - rewrite (release_rx_buffer_run _ _ _ 0%nat 8192) by (reflexivity || discriminate).
    reflexivity.
  - rewrite (release_rx_buffer_run _ _ _ 0%nat 8192) by (reflexivity || discriminate).
    reflexivity.
Qed.

(** *** Capsule checks *)

Lemma acquire_rx_buffer_invalid sdk s t o port_number buffer_number :
  valid_capsule (heap s o) CAPSULE_EXANIC = false ->
  acquire_rx_buffer o port_number buffer_number sdk s t
  = (Thrown "invalid exanic handle capsule", s, t).
Proof.
  intros H. unfold acquire_rx_buffer, bind. rewrite IsValid_run, H.
  reflexivity.
Qed.

Lemma receive_frame_invalid rt sdk s t o max_size :
  valid_capsule (heap s o) CAPSULE_EXANIC_RX = false ->
  receive_frame rt o max_size sdk s t
  = (Thrown "invalid exanic_rx handle capsule", s, t).
Proof.
  intros H. unfold receive_frame, bind. rewrite IsValid_run, H. reflexivity.
Qed.

Lemma release_rx_buffer_invalid sdk s t o :
  valid_capsule (heap s o) CAPSULE_EXANIC_RX = false ->
  release_rx_buffer o sdk s t = (tt, s, t).
Proof.
  intros H. unfold release_rx_buffer, bind. rewrite IsValid_run, H.
  reflexivity.
Qed.

Lemma release_handle_invalid sdk s t o :
  valid_capsule (heap s o) CAPSULE_EXANIC = false ->
  release_handle o sdk s t = (tt, s, t).
Proof.
  intros H. unfold release_handle, bind. rewrite IsValid_run, H. reflexivity.
Qed.

Lemma wraps_intro (p : ptr) (name : string) :
  wraps (if negb (non_null p) then PyNone else PyCapsule p (Some name)) p name.
Proof.
  unfold wraps, non_null, nullptr. destruct (Z.eqb_spec p 0) as [->|Hp]; cbn.
  - split; [tauto | intros H; contradiction].
  - split; [split; [discriminate | contradiction] | reflexivity].
Qed.

Lemma acquire_handle_run sdk s t device_name :
  let e := exanic_acquire_handle (c_str device_name) in
  let r := acquire_handle device_name sdk s t in
  state r = s /\ trace r = t ++ [Called e]
  /\ wraps (result r) (sdk t ptr e) CAPSULE_EXANIC.
Proof.
  intros e r. subst r e. unfold acquire_handle. run_eff.
  pose proof (wraps_intro
    (sdk t ptr (exanic_acquire_handle (c_str device_name))) CAPSULE_EXANIC) as W.
  destruct (negb (non_null _)); auto.
Qed.

Lemma acquire_rx_buffer_eq sdk s t o (nic : ptr) port_number buffer_number :
  heap s o = PyCapsule nic (Some CAPSULE_EXANIC) -> nic <> nullptr ->
  let e := exanic_acquire_rx_buffer nic port_number buffer_number in
  acquire_rx_buffer o port_number buffer_number sdk s t
  = (Returned (if negb (non_null (sdk t ptr e)) then PyNone
               else PyCapsule (sdk t ptr e) (Some CAPSULE_EXANIC_RX)),
     s, t ++ [Called e]).
Proof.
  intros Ho Hnic e. subst e. unfold acquire_rx_buffer, bind at 1.
  rewrite IsValid_run, Ho, valid_capsule_intro by assumption. cbn [negb].
  unfold bind at 1. rewrite (GetPointer_run sdk s t o _ nic Ho Hnic).
  run_eff. destruct (negb (non_null _)); reflexivity.
Qed.

Lemma acquire_rx_buffer_run sdk s t o port_number buffer_number :
  valid_capsule (heap s o) CAPSULE_EXANIC = true ->
  exists nic x,
    heap s o = PyCapsule nic (Some CAPSULE_EXANIC)
    /\ let e := exanic_acquire_rx_buffer nic port_number buffer_number in
       let r := acquire_rx_buffer o port_number buffer_number sdk s t in
       state r = s /\ trace r = t ++ [Called e]
       /\ result r = Returned x
       /\ wraps x (sdk t ptr e) CAPSULE_EXANIC_RX.
Proof.
  intros Hvalid. destruct (valid_capsule_inv _ _ Hvalid) as (nic & Ho & Hnic).
  pose (rx := sdk t ptr (exanic_acquire_rx_buffer nic port_number buffer_number)).
  exists nic,
    (if negb (non_null rx) then PyNone
     else PyCapsule rx (Some CAPSULE_EXANIC_RX)).
  split; [exact Ho|]. intros e r. subst r e.
  rewrite (acquire_rx_buffer_eq sdk s t o nic _ _ Ho Hnic).
  repeat split; try reflexivity; apply (wraps_intro rx CAPSULE_EXANIC_RX).
Qed.

(** C7: on an object that is not a valid capsule of the expected name,
    [acquire_rx_buffer] and [receive_frame] throw a runtime error and
    [release_rx_buffer] and [release_handle] return, all four without a vendor
    call and without touching the interpreter; [acquire_handle], and
    [acquire_rx_buffer] on a valid capsule (with the capsule's pointer), make
    one vendor call and return None exactly when the vendor returns a null
    pointer, and otherwise a capsule named "exanic_t" or "exanic_rx_t" around
    the vendor's pointer. *)
Theorem capsules_guard_vendor_calls sdk s t (o : objref) :
  (valid_capsule (heap s o) CAPSULE_EXANIC = false ->
     (forall port_number buffer_number,
         acquire_rx_buffer o port_number buffer_number sdk s t
         = (Thrown "invalid exanic handle capsule", s, t))
     /\ release_handle o sdk s t = (tt, s, t))
  /\ (valid_capsule (heap s o) CAPSULE_EXANIC_RX = false ->
     (forall rt max_size,
         receive_frame rt o max_size sdk s t
         = (Thrown "invalid exanic_rx handle capsule", s, t))
     /\ release_rx_buffer o sdk s t = (tt, s, t))
  /\ (forall device_name,
       let e := exanic_acquire_handle (c_str device_name) in
       let r := acquire_handle device_name sdk s t in
       trace r = t ++ [Called e]
       /\ wraps (result r) (sdk t ptr e) "exanic_t")
  /\ (valid_capsule (heap s o) CAPSULE_EXANIC = true ->
      forall port_number buffer_number,
      exists nic x,
        heap s o = PyCapsule nic (Some CAPSULE_EXANIC)
        /\ let e := exanic_acquire_rx_buffer nic port_number buffer_number in
           let r := acquire_rx_buffer o port_number buffer_number sdk s t in
           trace r = t ++ [Called e]
           /\ result r = Returned x
           /\ wraps x (sdk t ptr e) "exanic_rx_t").
Proof.
  split; [|split; [|split]].
  - intros H. split.
    + intros. now apply acquire_rx_buffer_invalid.
    + now apply release_handle_invalid.
  - intros H. split.
    + intros. now apply receive_frame_invalid.
    + now apply release_rx_buffer_invalid.
  - intros device_name e r.
    destruct (acquire_handle_run sdk s t device_name) as (_ & Ht & Hw).
    split; assumption.
  - intros H port_number buffer_number.
    destruct (acquire_rx_buffer_run sdk s t o port_number buffer_number H)
      as (nic & x & Ho & _ & Ht & Hr & Hw).
    exists nic, x. split; [exact Ho|]. cbv zeta. auto.
Qed.

(** A bytes object is no capsule and a capsule with a null pointer is not
    valid: both are refused without a vendor call.  With no device the acquire
    returns None, with one it returns the capsule of its handle. *)
Lemma capsules_guard_vendor_calls_witness :
  let dev := list_ascii_of_string "exanic0" in
  acquire_rx_buffer 2%nat 0 0 Samples.exanic_sdk Samples.interp0 []
  = (Thrown "invalid exanic handle capsule", Samples.interp0, [])
  /\ release_handle 3%nat Samples.exanic_sdk Samples.interp0 []
     = (tt, Samples.interp0, [])
  /\ result (acquire_handle dev Samples.exanic_absent Samples.interp0 [])
     = PyNone
  /\ result (acquire_handle dev Samples.exanic_sdk Samples.interp0 [])
     = PyCapsule 4096 (Some "exanic_t"%string).
Proof.
  intros dev. split; [|split; [|split]].
  - destruct (capsules_guard_vendor_calls Samples.exanic_sdk Samples.interp0
                [] 2%nat) as (Hbad & _).
    destruct Hbad as [Hthrow _]; [reflexivity|]. apply Hthrow.
  - destruct (capsules_guard_vendor_calls Samples.exanic_sdk Samples.interp0
                [] 3%nat) as (Hbad & _).
    destruct Hbad as [_ Hsilent]; [reflexivity|]. exact Hsilent.
  - destruct (capsules_guard_vendor_calls Samples.exanic_absent
                Samples.interp0 [] 0%nat) as (_ & _ & Hacq & _).
    destruct (Hacq dev) as (_ & Hnone & _). apply Hnone. reflexivity.
  - destruct (capsules_guard_vendor_calls Samples.exanic_sdk
                Samples.interp0 [] 0%nat) as (_ & _ & Hacq & _).
    destruct (Hacq dev) as (_ & _ & Hcap). apply Hcap. discriminate.
Defined.

(** *** Receiving a frame *)

Lemma new_string_builds rt (n : Z) (c : char) :
  builds rt n = true -> new_string rt n c = Returned (repeat c (Z.to_nat n)).
Proof.
  unfold builds, new_string. intros H. apply andb_prop in H as [Hmax Halloc].
  apply Z.leb_le in Hmax.
  destruct (Z.ltb_spec (string_max_size rt) n); [lia|].
  now rewrite Halloc.
Qed.

Lemma new_string_fails rt (n : Z) (c : char) :
  builds rt n = false -> exists what, new_string rt n c = Thrown what.
Proof.
  unfold builds, new_string. intros H.
  destruct (Z.ltb_spec (string_max_size rt) n) as [Hlt|Hle].
  - now exists length_error_what.
  - apply Z.leb_le in Hle. rewrite Hle in H. cbn in H. rewrite H.
    now exists bad_alloc_what.
Qed.

(** When the buffer can be made, the vendor is asked once. *)
Lemma receive_frame_eq rt (sdk : oracle ExanicE) s t o (rx : ptr) max_size :
  heap s o = PyCapsule rx (Some CAPSULE_EXANIC_RX) -> rx <> nullptr ->
  let size := effective_size max_size in
  builds rt size = true ->
  let e := exanic_receive_frame rx (repeat NUL (Z.to_nat size)) size nullptr in
  let n := fst (sdk t _ e) in
  let buf := snd (sdk t _ e) in
  receive_frame rt o max_size sdk s t
  = (if n <=? 0 then Returned [] else py_bytes (c_str buf) (to_size_t n),
     s, t ++ [Called e]).
Proof.
  intros Ho Hrx size Hbuilds e n buf. subst e n buf.
  unfold receive_frame, bind at 1.
  rewrite IsValid_run, Ho, valid_capsule_intro by assumption. cbn [negb].
  unfold bind at 1. rewrite (GetPointer_run sdk s t o _ rx Ho Hrx).
  fold (effective_size max_size). fold size.
  rewrite (new_string_builds rt size NUL Hbuilds). run_eff.
  destruct (_ <=? 0); reflexivity.
Qed.

(** When it cannot, the function throws before asking the vendor. *)
Lemma receive_frame_unbuilt rt (sdk : oracle ExanicE) s t o (rx : ptr)
    max_size :
  heap s o = PyCapsule rx (Some CAPSULE_EXANIC_RX) -> rx <> nullptr ->
  builds rt (effective_size max_size) = false ->
  exists what, receive_frame rt o max_size sdk s t = (Thrown what, s, t).
Proof.
  intros Ho Hrx Hfails.
  destruct (new_string_fails rt _ NUL Hfails) as (what & Hnew).
  exists what. unfold receive_frame, bind at 1.
  rewrite IsValid_run, Ho, valid_capsule_intro by assumption. cbn [negb].
  unfold bind at 1. rewrite (GetPointer_run sdk s t o _ rx Ho Hrx).
  fold (effective_size max_size). rewrite Hnew. reflexivity.
Qed.

Lemma py_bytes_prefix (buf : list char) (n : Z) :
  0 <= n <= Z.of_nat (List.length buf) ->
  py_bytes (c_str buf) n = Returned (firstn (Z.to_nat n) buf).
Proof.
  intros Hn. unfold py_bytes, c_str. rewrite length_app. cbn [List.length].
  destruct (Z.ltb_spec (Z.of_nat (List.length buf + 1)) n); [lia|].
  rewrite firstn_app.
  replace (Z.to_nat n - List.length buf)%nat with 0%nat by lia.
  cbn [firstn]. now rewrite app_nil_r.
Qed.

(** C6 (as amended): on a valid RX capsule and for every [max_size] (a
    [size_t]), [receive_frame] works with a buffer of [max_size] chars, 2048
    when [max_size] is 0.  When the runtime cannot make a string of that size
    (more than [std::string::max_size()], or no room) it throws without asking
    the vendor.  Otherwise it asks the vendor once, with the capsule's pointer
    and the zeroed buffer; when the vendor returns a length [n <= 0] it
    returns empty bytes, and when the vendor returns [0 < n] no more than the
    buffer size (the buffer keeping its size) it returns exactly the first [n]
    chars of the buffer, so no more than the size it works with. *)
Theorem receive_frame_bytes rt (sdk : oracle ExanicE) s t (o : objref)
    (max_size : Z) :
  valid_capsule (heap s o) CAPSULE_EXANIC_RX = true ->
  is_size_t max_size ->
  effective_size 0 = 2048
  /\ (max_size <> 0 -> effective_size max_size = max_size)
  /\ exists rx,
      heap s o = PyCapsule rx (Some CAPSULE_EXANIC_RX)
      /\ let size := effective_size max_size in
         let e := exanic_receive_frame rx (repeat NUL (Z.to_nat size)) size
                    nullptr in
         let n := fst (sdk t _ e) in
         let buf := snd (sdk t _ e) in
         let r := receive_frame rt o max_size sdk s t in
         state r = s
         /\ (builds rt size = false ->
             trace r = t /\ exists what, result r = Thrown what)
         /\ (builds rt size = true ->
             trace r = t ++ [Called e]
             /\ (n <= 0 -> result r = Returned [])
             /\ (0 < n <= size -> List.length buf = Z.to_nat size ->
                 exists bytes,
                   result r = Returned bytes
                   /\ bytes = firstn (Z.to_nat n) buf
                   /\ Z.of_nat (List.length bytes) = n
                   /\ Z.of_nat (List.length bytes) <= size)).
Proof.
  intros Hvalid Hmax. unfold is_size_t in Hmax.
  split; [reflexivity|]. split.
  { intros Hnz. unfold effective_size.
    destruct (Z.eqb_spec max_size 0); [contradiction | reflexivity]. }
  destruct (valid_capsule_inv _ _ Hvalid) as (rx & Ho & Hrx).
  exists rx. split; [exact Ho|]. intros size e n buf r. subst r.
  assert (Hsize : 0 < size < 2 ^ SIZE_WIDTH).
  { subst size. unfold effective_size, SIZE_WIDTH in *.
    destruct (Z.eqb_spec max_size 0); lia. }
  destruct (builds rt size) eqn:Hbuilds.
  - rewrite (receive_frame_eq rt sdk s t o rx max_size Ho Hrx Hbuilds).
    fold size e n buf. run_eff.
    split; [reflexivity|]. split; [discriminate|]. intros _.
    split; [reflexivity|]. split.
    + intros Hn. destruct (Z.leb_spec n 0); [reflexivity | lia].
    + intros Hn Hlen. destruct (Z.leb_spec n 0); [lia|].
      rewrite to_size_t_small by lia.
      rewrite py_bytes_prefix by lia.
      exists (firstn (Z.to_nat n) buf).
      assert (Hb : Z.of_nat (List.length (firstn (Z.to_nat n) buf)) = n)
        by (rewrite length_firstn; lia).
      repeat split; [exact Hb | lia].
  - destruct (receive_frame_unbuilt rt sdk s t o rx max_size Ho Hrx Hbuilds)
      as (what & Hrun).
    rewrite Hrun. run_eff.
    split; [reflexivity|]. split; [|discriminate]. intros _.
    split; [reflexivity | now exists what].
Qed.

(** The frame "ping" read through the RX capsule with the default size: the
    vendor writes 4 chars into the 2048-char buffer and 4 bytes come back. *)
Lemma receive_frame_bytes_witness :
  result (receive_frame Samples.runtime 0%nat 0 Samples.exanic_sdk
            Samples.interp0 [])
  = Returned (list_ascii_of_string "ping")
  /\ trace (receive_frame Samples.runtime 0%nat 0 Samples.exanic_sdk
              Samples.interp0 [])
     = [Called (exanic_receive_frame 8192 (repeat NUL 2048) 2048 nullptr)].
Proof.
  destruct (receive_frame_bytes Samples.runtime Samples.exanic_sdk
              Samples.interp0 [] 0%nat 0)
    as (_ & _ & rx & Ho & _ & _ & Hbuilt);
    [reflexivity | split; reflexivity |].
  cbn in Ho. injection Ho as <-.
  destruct Hbuilt as (Htrace & _ & Hframe); [reflexivity|]. split.
  - destruct Hframe as (bytes & Hres & -> & _);
      [vm_compute; split; [reflexivity | discriminate] | reflexivity |].
    exact Hres.
  - exact Htrace.
Defined.

(** The claim as written fails twice.  Asked for 2^63 chars, more than a
    string can hold, [receive_frame] throws and never asks the vendor, where
    the claim has it return bytes.  And the length the vendor returns is not
    clamped: a vendor that reports 5 chars for a 4-char buffer gets 5 bytes
    returned, more than the size asked for. *)
Lemma receive_frame_claim_fails :
  (receive_frame Samples.runtime 0%nat (2 ^ 63) Samples.exanic_sdk
     Samples.interp0 []
   = (Thrown length_error_what, Samples.interp0, []))
  /\ exists bytes,
      result (receive_frame Samples.runtime 0%nat 4 Samples.exanic_greedy
                Samples.interp0 [])
      = Returned bytes
      /\ List.length bytes = 5%nat
      /\ effective_size 4 = 4.
Proof.
  split.
  - reflexivity.
  - exists (repeat NUL 5). repeat split.
Qed.

End ExanicFacts.

(** ** The life of a session wrapper *)

Module LifecycleFacts.
Import C Eff Bind Spec MoreSpec SessionFacts.

Lemma nsq_ctor_run (sdk : oracle Nsq.Sdk.NsqApiE) t flow_path cfg :
  Nsq.PyNsqApi.ctor flow_path cfg sdk tt t
  = ({| Nsq.PyNsqApi.api_ := sdk t ptr (nsq_factory flow_path cfg) |}, tt,
     t ++ [Called (nsq_factory flow_path cfg)]).
Proof. destruct cfg; reflexivity. Qed.

(** X1: a wrapper releases what it created, once.  Constructing and then
    destroying a [PyMdApi] makes the factory call and then, when the factory
    gave a handle, one [Release] on that handle, and nothing else; without a
    handle it makes the factory call only.  The same holds for [PyNsqApi]
    with its factory and [ReleaseApi].  The destroyed wrapper holds no
    handle. *)
Theorem wrappers_release_what_they_create :
  (forall (sdk : oracle Ctp.Sdk.MdApiE) t flow_path,
      let e := Ctp.Sdk.CreateFtdcMdApi (c_str flow_path) in
      let p := sdk t ptr e in
      let r := ctp_lifetime flow_path sdk t in
      trace r = t ++ Called e
                  :: (if non_null p then [Called (Ctp.Sdk.Release p)] else [])
      /\ Ctp.PyMdApi.api (state r) = nullptr)
  /\ (forall (sdk : oracle Nsq.Sdk.NsqApiE) t flow_path cfg,
      let e := nsq_factory flow_path cfg in
      let p := sdk t ptr e in
      let r := nsq_lifetime flow_path cfg sdk t in
      trace r = t ++ Called e
                  :: (if non_null p then [Called (Nsq.Sdk.ReleaseApi p)]
                      else [])
      /\ Nsq.PyNsqApi.api_ (state r) = nullptr).
Proof.
  split.
  - intros sdk t flow_path e p r. subst r. unfold ctp_lifetime.
    destruct (PyMdApi_dtor_once sdk sdk
                (result (Ctp.PyMdApi.ctor flow_path sdk tt t))
                (trace (Ctp.PyMdApi.ctor flow_path sdk tt t)))
      as (Hnull & Htrace & _).
    split; [|exact Hnull]. rewrite Htrace.
    change (trace (Ctp.PyMdApi.ctor flow_path sdk tt t)) with (t ++ [Called e]).
    change (Ctp.PyMdApi.api (result (Ctp.PyMdApi.ctor flow_path sdk tt t)))
      with p.
    now rewrite <- app_assoc.
  - intros sdk t flow_path cfg e p r. subst r. unfold nsq_lifetime.
    rewrite nsq_ctor_run. cbn [result trace fst snd].
    destruct (PyNsqApi_dtor_once sdk sdk
                {| Nsq.PyNsqApi.api_ := sdk t ptr (nsq_factory flow_path cfg) |}
                (t ++ [Called (nsq_factory flow_path cfg)]))
      as (Hnull & Htrace & _).
    split; [|exact Hnull]. rewrite Htrace. cbn [Nsq.PyNsqApi.api_].
    fold e p. now rewrite <- app_assoc.
Qed.

(** X2: a [PyMdApi] whose creation failed is inert.  When the factory returns
    a null pointer, every session method of the wrapper returns -1 (or
    nothing) without any SDK call, the destructor makes no SDK call, and
    [GetApiVersion] still asks the SDK for its version. *)
Theorem ctp_failed_creation_is_inert (sdk : oracle Ctp.Sdk.MdApiE)
    (t : list (event Ctp.Sdk.MdApiE)) (flow_path : std_string) :
  sdk t ptr (Ctp.Sdk.CreateFtdcMdApi (c_str flow_path)) = nullptr ->
  let this := result (Ctp.PyMdApi.ctor flow_path sdk tt t) in
  (forall m t',
      let r := Ctp.Session.invoke m sdk this t' in
      trace r = t' /\ state r = this
      /\ result r = null_result (Ctp.Session.return_type m))
  /\ (forall t', trace (Ctp.PyMdApi.dtor sdk this t') = t')
  /\ (forall t',
      let r := Ctp.PyMdApi.GetApiVersion sdk this t' in
      trace r = t' ++ [Called Ctp.Sdk.GetApiVersion]
      /\ result r = sdk t' _ Ctp.Sdk.GetApiVersion).
Proof.
  intros Hnull this.
  assert (Hthis : Ctp.PyMdApi.api this = nullptr) by exact Hnull.
  split; [|split].
  - intros m t' r. subst r.
    destruct (ctp_passes_through m sdk this t') as (Hstate & Hnone & _).
    destruct (Hnone Hthis) as [Htrace Hres]. auto.
  - intros t'.
    destruct (PyMdApi_dtor_once sdk sdk this t') as (_ & Htrace & _).
    rewrite Htrace, Hthis. cbn. apply app_nil_r.
  - intros t' r. subst r. split; reflexivity.
Qed.

Lemma ctp_failed_creation_is_inert_witness :
  let dead : oracle Ctp.Sdk.MdApiE :=
    fun t R e =>
      match e in Ctp.Sdk.MdApiE R return R with
      | Ctp.Sdk.CreateFtdcMdApi _ => nullptr
      | e' => Samples.ctp_sdk t _ e'
      end in
  let this := result (Ctp.PyMdApi.ctor [] dead tt []) in
  result (Ctp.Session.invoke Ctp.Session.Join dead this []) = RInt (-1)
  /\ trace (Ctp.Session.invoke
              (Ctp.Session.SubscribeMarketData
                 [list_ascii_of_string "rb2505"]) dead this []) = [].
Proof.
  intros dead this.
  destruct (ctp_failed_creation_is_inert dead [] []) as (Hm & _);
    [reflexivity|].
  split.
  - apply (Hm Ctp.Session.Join []).
  - apply (Hm (Ctp.Session.SubscribeMarketData
                 [list_ascii_of_string "rb2505"]) []).
Defined.

(** X3: a [PyNsqApi] whose creation failed is inert, in the same way: its
    session methods return -1, nothing, or the empty string without any SDK
    call, its destructor makes no SDK call, and [GetApiVersion] still asks the
    SDK. *)
Theorem nsq_failed_creation_is_inert (sdk : oracle Nsq.Sdk.NsqApiE)
    (t : list (event Nsq.Sdk.NsqApiE)) (flow_path cfg : std_string)
    (sizeof_ExchangeID sizeof_InstrumentID : Z) :
  sdk t ptr (nsq_factory flow_path cfg) = nullptr ->
  let this := result (Nsq.PyNsqApi.ctor flow_path cfg sdk tt t) in
  (forall m t',
      let r := Nsq.Session.invoke sizeof_ExchangeID sizeof_InstrumentID m
                 sdk this t' in
      trace r = t' /\ state r = this
      /\ result r = null_result (Nsq.Session.return_type m))
  /\ (forall t', trace (Nsq.PyNsqApi.dtor sdk this t') = t')
  /\ (forall t',
      let r := Nsq.PyNsqApi.GetApiVersion sdk this t' in
      trace r = t' ++ [Called Nsq.Sdk.GetNsqApiVersion]
      /\ result r = sdk t' _ Nsq.Sdk.GetNsqApiVersion).
Proof.
  intros Hnull this.
  assert (Hthis : Nsq.PyNsqApi.api_ this = nullptr).
  { subst this. rewrite nsq_ctor_run. exact Hnull. }
  split; [|split].
  - intros m t' r. subst r.
    destruct (nsq_passes_through sizeof_ExchangeID sizeof_InstrumentID m
                sdk this t') as (Hstate & Hnone & _).
    destruct (Hnone Hthis) as [Htrace Hres]. auto.
  - intros t'.
    destruct (PyNsqApi_dtor_once sdk sdk this t') as (_ & Htrace & _).
    rewrite Htrace, Hthis. cbn. apply app_nil_r.
  - intros t' r. subst r. split; reflexivity.
Qed.

Lemma nsq_failed_creation_is_inert_witness :
  let dead : oracle Nsq.Sdk.NsqApiE :=
    fun t R e =>
      match e in Nsq.Sdk.NsqApiE R return R with
      | Nsq.Sdk.NewNsqApi _ => nullptr
      | Nsq.Sdk.NewNsqApiExt _ _ => nullptr
      | e' => Samples.nsq_sdk t _ e'
      end in
  let this := result (Nsq.PyNsqApi.ctor [] [] dead tt []) in
  result (Nsq.Session.invoke 5 32 (Nsq.Session.GetApiErrorMsg 3) dead this [])
  = RString []
  /\ trace (Nsq.Session.invoke 5 32
              (Nsq.Session.SubscribeMarket (list_ascii_of_string "F3") 1)
              dead this []) = [].
Proof.
  intros dead this.
  destruct (nsq_failed_creation_is_inert dead [] [] [] 5 32) as (Hm & _);
    [reflexivity|].
  split.
  - apply (Hm (Nsq.Session.GetApiErrorMsg 3) []).
  - apply (Hm (Nsq.Session.SubscribeMarket (list_ascii_of_string "F3") 1) []).
Defined.

End LifecycleFacts.

(** ** Subscription records *)

Module SubscribeMoreFacts.
Import C Eff Bind Spec MoreSpec CFacts SetterFacts SessionFacts SubscribeFacts.
Import Nsq.CHSNsqReqFutuDepthMarketDataField.

Lemma copy_cstr_terminated (size : Z) (src : std_string) :
  0 < size < 2 ^ SIZE_WIDTH ->
  terminated_array size
    (Nsq.copy_cstr (repeat NUL (Z.to_nat size)) size src).
Proof.
  intros Hsize. split.
  - rewrite copy_cstr_length; auto using repeat_length.
  - apply copy_cstr_nul_terminated; auto using repeat_length.
Qed.

Lemma req_of_well_formed (sx si : Z) (c : std_string * std_string) :
  0 < sx < 2 ^ SIZE_WIDTH -> 0 < si < 2 ^ SIZE_WIDTH ->
  well_formed_req sx si (req_of sx si c).
Proof.
  intros Hx Hi. split; cbn [req_of ExchangeID InstrumentID];
    now apply copy_cstr_terminated.
Qed.

(** X4: [SubscribeMarket] on a handle sends one request record with count 0:
    its ExchangeID array has the header's size, ends in NUL and reads back as
    the exchange id (the part before its first NUL, cut to size - 1 chars),
    and its InstrumentID array is all NUL. *)
Theorem subscribe_market_request (sx si : Z) (sdk : oracle Nsq.Sdk.NsqApiE)
    (this : Nsq.PyNsqApi.t) t (exchange_id : std_string) (request_id : Z) :
  Nsq.PyNsqApi.api_ this <> nullptr ->
  0 < sx < 2 ^ SIZE_WIDTH ->
  let r := Nsq.PyNsqApi.SubscribeMarket sx si exchange_id request_id
             sdk this t in
  exists req,
    let e := Nsq.Sdk.ReqFutuDepthMarketDataSubscribe
               (Nsq.PyNsqApi.api_ this) [req] 0 request_id in
    trace r = t ++ [Called e]
    /\ result r = sdk t Z e
    /\ terminated_array sx (ExchangeID req)
    /\ string_of_cstr (ExchangeID req)
       = Some (truncated (until_nul exchange_id) (Z.to_nat sx))
    /\ InstrumentID req = repeat NUL (Z.to_nat si).
Proof.
  intros Hapi Hx r. subst r. destruct this as [api].
  cbn [Nsq.PyNsqApi.api_] in *.
  exists {| ExchangeID :=
              Nsq.copy_cstr (repeat NUL (Z.to_nat sx)) sx exchange_id;
            InstrumentID := repeat NUL (Z.to_nat si) |}.
  unfold Nsq.PyNsqApi.SubscribeMarket. run_eff. cbn [Nsq.PyNsqApi.api_].
  rewrite (non_null_true _ Hapi). cbn [negb ExchangeID InstrumentID].
  repeat split.
  - rewrite copy_cstr_length; auto using repeat_length.
  - apply copy_cstr_nul_terminated; auto using repeat_length.
  - unfold truncated. apply copy_cstr_reads_back; auto using repeat_length.
Qed.

Lemma subscribe_market_request_witness :
  let f3 := list_ascii_of_string "F3" in
  exists req,
    trace (Nsq.PyNsqApi.SubscribeMarket 5 32 f3 1 Samples.nsq_sdk
             {| Nsq.PyNsqApi.api_ := 8192 |} [])
    = [Called (Nsq.Sdk.ReqFutuDepthMarketDataSubscribe 8192 [req] 0 1)]
    /\ string_of_cstr (ExchangeID req) = Some f3.
Proof.
  intros f3.
  destruct (subscribe_market_request 5 32 Samples.nsq_sdk
              {| Nsq.PyNsqApi.api_ := 8192 |} [] f3 1)
    as (req & Htrace & _ & _ & Hread & _);
    [discriminate | split; reflexivity |].
  exists req. split; [exact Htrace | exact Hread].
Defined.

(** X5: whatever the lengths of the exchange and instrument strings, every
    record [ReqFutuDepthMarketDataSubscribe] hands to the SDK keeps the
    header's array sizes, and both of its arrays end in NUL. *)
Theorem subscribe_records_well_formed (sx si : Z)
    (sdk : oracle Nsq.Sdk.NsqApiE) (this : Nsq.PyNsqApi.t) t
    (contracts : list (std_string * std_string)) (request_id : Z) :
  Nsq.PyNsqApi.api_ this <> nullptr ->
  0 < sx < 2 ^ SIZE_WIDTH -> 0 < si < 2 ^ SIZE_WIDTH ->
  exists reqs nCount,
    trace (Nsq.PyNsqApi.ReqFutuDepthMarketDataSubscribe sx si contracts
             request_id sdk this t)
    = t ++ [Called (Nsq.Sdk.ReqFutuDepthMarketDataSubscribe
                      (Nsq.PyNsqApi.api_ this) reqs nCount request_id)]
    /\ Forall (well_formed_req sx si) reqs.
Proof.
  intros Hapi Hx Hi. destruct this as [api]. cbn [Nsq.PyNsqApi.api_] in *.
  exists (map (req_of sx si) contracts).
  unfold Nsq.PyNsqApi.ReqFutuDepthMarketDataSubscribe. run_eff.
  cbn [Nsq.PyNsqApi.api_]. rewrite (non_null_true _ Hapi). cbn [negb].
  rewrite fill_loop. eexists. split; [reflexivity|].
  apply Forall_forall. intros r Hr. apply in_map_iff in Hr as (c & <- & _).
  now apply req_of_well_formed.
Qed.

Lemma subscribe_records_well_formed_witness :
  let long := list_ascii_of_string "an-exchange-name-longer-than-five" in
  exists reqs nCount,
    trace (Nsq.PyNsqApi.ReqFutuDepthMarketDataSubscribe 5 32
             [(long, long)] 1 Samples.nsq_sdk
             {| Nsq.PyNsqApi.api_ := 8192 |} [])
    = [Called (Nsq.Sdk.ReqFutuDepthMarketDataSubscribe 8192 reqs nCount 1)]
    /\ Forall (well_formed_req 5 32) reqs.
Proof.
  intros long.
  apply (subscribe_records_well_formed 5 32 Samples.nsq_sdk
           {| Nsq.PyNsqApi.api_ := 8192 |} [] [(long, long)] 1);
    [discriminate | split; reflexivity | split; reflexivity].
Defined.

End SubscribeMoreFacts.

(** ** What a setter leaves in the record *)

Module SetterMoreFacts.
Import C Bind Spec MoreSpec CFacts SetterFacts SetGet.

Lemma strncpy_sizeof_length (arr src : list char) :
  List.length (strncpy arr src (Ctp.sizeof arr)) = List.length arr.
Proof.
  unfold strncpy, Ctp.sizeof. rewrite Nat2Z.id, length_app.
  rewrite strncpy_chars_length, skipn_all. cbn. lia.
Qed.

(** A second store replaces the first whole. *)
Lemma strncpy_sizeof_overwrite (arr : list char) (v w : std_string) :
  strncpy (strncpy arr (c_str v) (Ctp.sizeof arr)) (c_str w)
    (Ctp.sizeof (strncpy arr (c_str v) (Ctp.sizeof arr)))
  = strncpy arr (c_str w) (Ctp.sizeof arr).
Proof.
  rewrite (strncpy_sizeof_eq (strncpy arr (c_str v) (Ctp.sizeof arr)) w).
  rewrite (strncpy_sizeof_eq arr w). cbv zeta.
  now rewrite strncpy_sizeof_length.
Qed.

Lemma copy_cstr_sizeof_length (arr : list char) (v : std_string) :
  array_size_ok arr ->
  List.length (Nsq.copy_cstr arr (Nsq.sizeof arr) v) = List.length arr.
Proof.
  intros H. apply copy_cstr_length; [exact H|].
  unfold Nsq.sizeof. now rewrite Nat2Z.id.
Qed.

Lemma copy_cstr_overwrite (arr : list char) (v w : std_string) :
  array_size_ok arr ->
  Nsq.copy_cstr (Nsq.copy_cstr arr (Nsq.sizeof arr) v)
    (Nsq.sizeof (Nsq.copy_cstr arr (Nsq.sizeof arr) v)) w
  = Nsq.copy_cstr arr (Nsq.sizeof arr) w.
Proof.
  intros H.
  assert (Hlen := copy_cstr_sizeof_length arr v H).
  change (Nsq.sizeof (Nsq.copy_cstr arr (Nsq.sizeof arr) v))
    with (Z.of_nat (List.length (Nsq.copy_cstr arr (Nsq.sizeof arr) v))).
  rewrite Hlen. fold (Nsq.sizeof arr).
  assert (Hto : Z.to_nat (Nsq.sizeof arr) = List.length arr)
    by (unfold Nsq.sizeof; apply Nat2Z.id).
  rewrite (copy_cstr_eq (Nsq.copy_cstr arr (Nsq.sizeof arr) v))
    by (exact H || congruence).
  rewrite (copy_cstr_eq arr) by (exact H || congruence).
  reflexivity.
Qed.

(** X6: a setter writes inside its own array.  Each of the three CTP setters
    and (on arrays of at least one char) each of the two NSQ setters leaves
    the sizes of all arrays of the record as they were and the other members
    unchanged, however long the string is. *)
Theorem setters_keep_layout (v : std_string) :
  (forall f,
      (ctp_same_layout f (CtpB.set_BrokerID f v)
       /\ ctp_others_kept "BrokerID" f (CtpB.set_BrokerID f v))
      /\ (ctp_same_layout f (CtpB.set_UserID f v)
          /\ ctp_others_kept "UserID" f (CtpB.set_UserID f v))
      /\ (ctp_same_layout f (CtpB.set_Password f v)
          /\ ctp_others_kept "Password" f (CtpB.set_Password f v)))
  /\ (forall g, array_size_ok (NsqReq.AccountID g) ->
      nsq_same_layout g (NsqB.set_AccountID g v)
      /\ nsq_others_kept "AccountID" g (NsqB.set_AccountID g v))
  /\ (forall g, array_size_ok (NsqReq.Password g) ->
      nsq_same_layout g (NsqB.set_Password g v)
      /\ nsq_others_kept "Password" g (NsqB.set_Password g v)).
Proof.
  split; [|split].
  - intros [b u p].
    unfold ctp_same_layout, ctp_others_kept, CtpB.set_BrokerID,
      CtpB.set_UserID, CtpB.set_Password.
    cbn [CtpReq.BrokerID CtpReq.UserID CtpReq.Password].
    rewrite !strncpy_sizeof_length.
    repeat split; auto; intros H; now contradiction H.
  - intros [a p] Hsize.
    unfold nsq_same_layout, nsq_others_kept, NsqB.set_AccountID.
    cbn [NsqReq.AccountID NsqReq.Password] in *.
    rewrite copy_cstr_sizeof_length by exact Hsize.
    repeat split; auto; intros H; now contradiction H.
  - intros [a p] Hsize.
    unfold nsq_same_layout, nsq_others_kept, NsqB.set_Password.
    cbn [NsqReq.AccountID NsqReq.Password] in *.
    rewrite copy_cstr_sizeof_length by exact Hsize.
    repeat split; auto; intros H; now contradiction H.
Qed.

Lemma setters_keep_layout_witness :
  let long := list_ascii_of_string "a-password-much-longer-than-nineteen" in
  List.length (NsqReq.AccountID (NsqB.set_AccountID Samples.nsq_req long))
  = 19%nat
  /\ NsqReq.Password (NsqB.set_AccountID Samples.nsq_req long)
     = NsqReq.Password Samples.nsq_req.
Proof.
  intros long.
  destruct (setters_keep_layout long) as (_ & Hacc & _).
  destruct (Hacc Samples.nsq_req) as [[Hlen _] [_ Hpw]];
    [vm_compute; split; reflexivity|].
  split; [exact Hlen | apply Hpw; discriminate].
Defined.

(** X7: the last write wins.  Setting a member to [v] and then to [w] leaves
    the record exactly as setting it to [w] alone: nothing of a longer [v]
    stays behind a shorter [w]. *)
Theorem setters_overwrite (v w : std_string) :
  (forall f,
      CtpB.set_BrokerID (CtpB.set_BrokerID f v) w = CtpB.set_BrokerID f w
      /\ CtpB.set_UserID (CtpB.set_UserID f v) w = CtpB.set_UserID f w
      /\ CtpB.set_Password (CtpB.set_Password f v) w = CtpB.set_Password f w)
  /\ (forall g, array_size_ok (NsqReq.AccountID g) ->
      NsqB.set_AccountID (NsqB.set_AccountID g v) w = NsqB.set_AccountID g w)
  /\ (forall g, array_size_ok (NsqReq.Password g) ->
      NsqB.set_Password (NsqB.set_Password g v) w = NsqB.set_Password g w).
Proof.
  split; [|split].
  - intros [b u p].
    unfold CtpB.set_BrokerID, CtpB.set_UserID, CtpB.set_Password.
    cbn [CtpReq.BrokerID CtpReq.UserID CtpReq.Password].
    rewrite !strncpy_sizeof_overwrite. auto.
  - intros [a p] Hsize. unfold NsqB.set_AccountID.
    cbn [NsqReq.AccountID NsqReq.Password] in *.
    now rewrite copy_cstr_overwrite.
  - intros [a p] Hsize. unfold NsqB.set_Password.
    cbn [NsqReq.AccountID NsqReq.Password] in *.
    now rewrite copy_cstr_overwrite.
Qed.

Lemma setters_overwrite_witness :
  let long := list_ascii_of_string "account-0123456789" in
  let short := list_ascii_of_string "acc" in
  NsqB.get_AccountID
    (NsqB.set_AccountID (NsqB.set_AccountID Samples.nsq_req long) short)
  = Some (VString short).
Proof.
  intros long short.
  destruct (setters_overwrite long short) as (_ & Hacc & _).
  rewrite Hacc by (vm_compute; split; reflexivity). reflexivity.
Defined.

(** X8: a CTP setter given a string whose part before the first NUL is at
    least as long as the member stores the first (member size) chars of it
    and no NUL: the array is left without a terminator, and reading the
    member back as a C string runs past its end. *)
Theorem ctp_setters_overlong (v : std_string)
    (f : Ctp.CThostFtdcReqUserLoginField.t) :
  ((List.length (CtpReq.BrokerID f) <= List.length (until_nul v))%nat ->
     CtpReq.BrokerID (CtpB.set_BrokerID f v)
     = firstn (List.length (CtpReq.BrokerID f)) (until_nul v)
     /\ ~ In NUL (CtpReq.BrokerID (CtpB.set_BrokerID f v))
     /\ CtpB.get_BrokerID (CtpB.set_BrokerID f v) = None)
  /\ ((List.length (CtpReq.UserID f) <= List.length (until_nul v))%nat ->
     CtpReq.UserID (CtpB.set_UserID f v)
     = firstn (List.length (CtpReq.UserID f)) (until_nul v)
     /\ ~ In NUL (CtpReq.UserID (CtpB.set_UserID f v))
     /\ CtpB.get_UserID (CtpB.set_UserID f v) = None)
  /\ ((List.length (CtpReq.Password f) <= List.length (until_nul v))%nat ->
     CtpReq.Password (CtpB.set_Password f v)
     = firstn (List.length (CtpReq.Password f)) (until_nul v)
     /\ ~ In NUL (CtpReq.Password (CtpB.set_Password f v))
     /\ CtpB.get_Password (CtpB.set_Password f v) = None).
Proof.
  destruct f as [b u p].
  unfold CtpB.get_BrokerID, CtpB.get_UserID, CtpB.get_Password,
    CtpB.set_BrokerID, CtpB.set_UserID, CtpB.set_Password, return_string.
  cbn [CtpReq.BrokerID CtpReq.UserID CtpReq.Password].
  split; [|split]; intros Hle;
    destruct (strncpy_sizeof_overlong _ v Hle) as (Heq & Hno & Hread);
    rewrite Hread; auto.
Qed.

Lemma ctp_setters_overlong_witness :
  let v := list_ascii_of_string "0123456789ABCDEF" in
  CtpReq.BrokerID (CtpB.set_BrokerID Samples.ctp_req v)
  = list_ascii_of_string "0123456789A"
  /\ CtpB.get_BrokerID (CtpB.set_BrokerID Samples.ctp_req v) = None.
Proof.
  intros v.
  destruct (ctp_setters_overlong v Samples.ctp_req) as (Hb & _).
  destruct Hb as (Heq & _ & Hread); [cbn; lia|].
  split; [rewrite Heq; reflexivity | exact Hread].
Defined.

End SetterMoreFacts.

(** ** Registered callbacks and trampoline overrides *)

Module BindingFacts.
Import C Bind.

(** X9: the callbacks registered on the bound SPI class are exactly the
    virtual methods the trampoline overrides, for [PyMdSpi] and for
    [PyNsqSpi]: every name a script can define and have registered is
    dispatched by the trampoline, and every override is registered. *)
Theorem registered_callbacks_are_overridden (fn : string) :
  (In fn Ctp.spi_bindings <-> exists cb, Ctp.Callback.name cb = fn)
  /\ (In fn Nsq.spi_bindings <-> exists cb, Nsq.Callback.name cb = fn).
Proof.
  split; split.
  - intros H. cbn in H.
    destruct H as [<-|[<-|[<-|[<-|[<-|[<-|[]]]]]]].
    + now exists Ctp.Callback.OnFrontConnected.
    + now exists (Ctp.Callback.OnFrontDisconnected 0).
    + now exists (Ctp.Callback.OnRspUserLogin 0 0 0 false).
    + now exists (Ctp.Callback.OnRtnDepthMarketData 0).
    + now exists (Ctp.Callback.OnRspSubMarketData 0 0 0 false).
    + now exists (Ctp.Callback.OnRspError 0 0 false).
  - intros [cb <-]. destruct cb; cbn; tauto.
  - intros H. cbn in H.
    destruct H as [<-|[<-|[<-|[<-|[<-|[]]]]]].
    + now exists Nsq.Callback.OnFrontConnected.
    + now exists (Nsq.Callback.OnFrontDisconnected 0).
    + now exists (Nsq.Callback.OnRspUserLogin 0 0 0 false).
    + now exists (Nsq.Callback.OnRspFutuDepthMarketDataSubscribe 0 0 false).
    + now exists (Nsq.Callback.OnRtnFutuDepthMarketData 0).
  - intros [cb <-]. destruct cb; cbn; tauto.
Qed.

End BindingFacts.

(** ** exanic_pybind: what a capsule carries *)

Module CapsuleFacts.
Import C Eff Py Exanic Exanic.Sdk Spec CFacts SessionFacts ExanicFacts.

Lemma device_capsule_not_rx (p : ptr) :
  valid_capsule (PyCapsule p (Some CAPSULE_EXANIC)) CAPSULE_EXANIC_RX = false.
Proof. cbn. apply andb_false_r. Qed.

Lemma rx_capsule_not_device (p : ptr) :
  valid_capsule (PyCapsule p (Some CAPSULE_EXANIC_RX)) CAPSULE_EXANIC = false.
Proof. cbn. apply andb_false_r. Qed.

(** X10: the two kinds of capsule are not interchangeable.  A device capsule
    given to [receive_frame] raises the runtime error and given to
    [release_rx_buffer] is ignored; an RX-buffer capsule given to
    [acquire_rx_buffer] raises and given to [release_handle] is ignored; in
    all four cases no vendor function is called. *)
Theorem capsule_kinds_are_kept_apart (sdk : oracle ExanicE) s t (o : objref)
    (p : ptr) :
  (heap s o = PyCapsule p (Some CAPSULE_EXANIC) ->
     (forall rt max_size,
         receive_frame rt o max_size sdk s t
         = (Thrown "invalid exanic_rx handle capsule", s, t))
     /\ release_rx_buffer o sdk s t = (tt, s, t))
  /\ (heap s o = PyCapsule p (Some CAPSULE_EXANIC_RX) ->
     (forall port_number buffer_number,
         acquire_rx_buffer o port_number buffer_number sdk s t
         = (Thrown "invalid exanic handle capsule", s, t))
     /\ release_handle o sdk s t = (tt, s, t)).
Proof.
  split; intros Ho.
  - assert (Hbad : valid_capsule (heap s o) CAPSULE_EXANIC_RX = false)
      by (rewrite Ho; apply device_capsule_not_rx).
    split; [intros rt max_size; now apply receive_frame_invalid
           | now apply release_rx_buffer_invalid].
  - assert (Hbad : valid_capsule (heap s o) CAPSULE_EXANIC = false)
      by (rewrite Ho; apply rx_capsule_not_device).
    split; [intros; now apply acquire_rx_buffer_invalid
           | now apply release_handle_invalid].
Qed.

Lemma capsule_kinds_are_kept_apart_witness :
  receive_frame Samples.runtime 1%nat 64 Samples.exanic_sdk Samples.interp0 []
  = (Thrown "invalid exanic_rx handle capsule", Samples.interp0, [])
  /\ release_handle 0%nat Samples.exanic_sdk Samples.interp0 []
     = (tt, Samples.interp0, []).
Proof.
  split.
  - destruct (capsule_kinds_are_kept_apart Samples.exanic_sdk
                Samples.interp0 [] 1%nat 4096) as [Hdev _].
    destruct Hdev as [Hthrow _]; [reflexivity|]. apply Hthrow.
  - destruct (capsule_kinds_are_kept_apart Samples.exanic_sdk
                Samples.interp0 [] 0%nat 8192) as [_ Hrx].
    destruct Hrx as [_ Hsilent]; [reflexivity|]. exact Hsilent.
Defined.

(** X11: the device pointer round-trips through its capsule.  When
    [acquire_handle] got a pointer [p] that is not null, the object it
    returned, given back later (in any interpreter state that holds it),
    makes [acquire_rx_buffer] and [release_handle] call the vendor with that
    same [p]. *)
Theorem device_pointer_round_trip (sdk : oracle ExanicE) s t
    (device_name : std_string) :
  let p := sdk t ptr (exanic_acquire_handle (c_str device_name)) in
  let x := result (acquire_handle device_name sdk s t) in
  p <> nullptr ->
  forall (sdk' : oracle ExanicE) s' t' (o : objref),
    heap s' o = x ->
    (forall port_number buffer_number,
        trace (acquire_rx_buffer o port_number buffer_number sdk' s' t')
        = t' ++ [Called (exanic_acquire_rx_buffer p port_number
                           buffer_number)])
    /\ trace (release_handle o sdk' s' t')
       = t' ++ [Called (exanic_release_handle p)].
Proof.
  intros p x Hp sdk' s' t' o Ho.
  destruct (acquire_handle_run sdk s t device_name) as (_ & _ & _ & Hcap).
  specialize (Hcap Hp). fold x p in Hcap. rewrite Hcap in Ho. split.
  - intros port_number buffer_number.
    now rewrite (acquire_rx_buffer_eq sdk' s' t' o p _ _ Ho Hp).
  - now rewrite (release_handle_run sdk' s' t' o p Ho Hp).
Qed.

Lemma device_pointer_round_trip_witness :
  let x := result (acquire_handle (list_ascii_of_string "exanic0")
                     Samples.exanic_sdk Samples.interp0 []) in
  let s' := {| heap := store (heap Samples.interp0) 7%nat x; err := None |} in
  trace (acquire_rx_buffer 7%nat 0 0 Samples.exanic_sdk s' [])
  = [Called (exanic_acquire_rx_buffer 4096 0 0)].
Proof.
  intros x s'.
  destruct (device_pointer_round_trip Samples.exanic_sdk Samples.interp0 []
              (list_ascii_of_string "exanic0")) with
    (sdk' := Samples.exanic_sdk) (s' := s') (t' := @nil (event ExanicE))
    (o := 7%nat) as [Hacq _]; [discriminate | reflexivity |].
  apply Hacq.
Defined.

(** X12: the RX-buffer pointer round-trips through its capsule.  When
    [acquire_rx_buffer] on a valid device capsule got a pointer [rx] that is
    not null, the object it returned, given back later, makes
    [release_rx_buffer] call the vendor with that same [rx], and makes
    [receive_frame], for every [max_size] (a [size_t]) whose buffer the
    runtime can make, call the vendor with that same [rx]. *)
Theorem rx_pointer_round_trip (sdk : oracle ExanicE) s t (o : objref)
    (nic : ptr) (port_number buffer_number : Z) :
  heap s o = PyCapsule nic (Some CAPSULE_EXANIC) -> nic <> nullptr ->
  let rx := sdk t ptr
              (exanic_acquire_rx_buffer nic port_number buffer_number) in
  rx <> nullptr ->
  exists x,
    result (acquire_rx_buffer o port_number buffer_number sdk s t)
    = Returned x
    /\ forall (sdk' : oracle ExanicE) s' t' (o' : objref),
        heap s' o' = x ->
        (forall rt max_size,
            is_size_t max_size ->
            let size := effective_size max_size in
            builds rt size = true ->
            trace (receive_frame rt o' max_size sdk' s' t')
            = t' ++ [Called (exanic_receive_frame rx
                               (repeat NUL (Z.to_nat size)) size nullptr)])
        /\ trace (release_rx_buffer o' sdk' s' t')
           = t' ++ [Called (exanic_release_rx_buffer rx)].
Proof.
  intros Ho Hnic rx Hrx.
  exists (PyCapsule rx (Some CAPSULE_EXANIC_RX)). split.
  - rewrite (acquire_rx_buffer_eq sdk s t o nic _ _ Ho Hnic).
    cbn [result fst]. fold rx. now rewrite (non_null_true _ Hrx).
  - intros sdk' s' t' o' Ho'. split.
    + intros rt max_size _ size Hbuilds.
      now rewrite (receive_frame_eq rt sdk' s' t' o' rx max_size Ho' Hrx
                     Hbuilds).
    + now rewrite (release_rx_buffer_run sdk' s' t' o' rx Ho' Hrx).
Qed.

Lemma rx_pointer_round_trip_witness :
  exists x,
    result (acquire_rx_buffer 1%nat 0 0 Samples.exanic_sdk Samples.interp0 [])
    = Returned x
    /\ forall s' o', heap s' o' = x ->
        trace (receive_frame Samples.runtime o' 64 Samples.exanic_sdk s' [])
        = [Called (exanic_receive_frame 8192 (repeat NUL 64) 64 nullptr)]
        /\ trace (release_rx_buffer o' Samples.exanic_sdk s' [])
           = [Called (exanic_release_rx_buffer 8192)].
Proof.
  destruct (rx_pointer_round_trip Samples.exanic_sdk Samples.interp0 []
              1%nat 4096 0 0) as (x & Hres & Huse);
    [reflexivity | discriminate | discriminate |].
  exists x. split; [exact Hres|]. intros s' o' Ho'.
  destruct (Huse Samples.exanic_sdk s' [] o' Ho') as [Hrecv Hrel].
  split; [|exact Hrel].
  apply (Hrecv Samples.runtime 64);
    [vm_compute; split; [discriminate | reflexivity] | reflexivity].
Defined.

(** X13: a released RX capsule still passes its pointer on.  After
    [release_rx_buffer] on a valid RX capsule, [receive_frame] on the same
    capsule, for a [max_size] (a [size_t]) whose buffer the runtime can make,
    does not raise: it calls the vendor with the pointer that was just
    released. *)
Theorem receive_after_release rt (sdk : oracle ExanicE) s t (o : objref)
    (max_size : Z) :
  valid_capsule (heap s o) CAPSULE_EXANIC_RX = true ->
  is_size_t max_size ->
  builds rt (effective_size max_size) = true ->
  exists rx,
    heap s o = PyCapsule rx (Some CAPSULE_EXANIC_RX)
    /\ let size := effective_size max_size in
       trace (bind (release_rx_buffer o)
                (fun _ => receive_frame rt o max_size) sdk s t)
       = t ++ [Called (exanic_release_rx_buffer rx);
               Called (exanic_receive_frame rx (repeat NUL (Z.to_nat size))
                         size nullptr)].
Proof.
  intros Hvalid _ Hbuilds.
  destruct (valid_capsule_inv _ _ Hvalid) as (rx & Ho & Hrx).
  exists rx. split; [exact Ho|]. intros size. unfold bind.
  rewrite (release_rx_buffer_run sdk s t o rx Ho Hrx).
  rewrite (receive_frame_eq rt sdk (after_release s) _ o rx max_size Ho Hrx
             Hbuilds).
  cbn [trace snd]. now rewrite <- app_assoc.
Qed.

Lemma receive_after_release_witness :
  trace (bind (release_rx_buffer 0%nat)
           (fun _ => receive_frame Samples.runtime 0%nat 64)
           Samples.exanic_sdk Samples.interp0 [])
  = [Called (exanic_release_rx_buffer 8192);
     Called (exanic_receive_frame 8192 (repeat NUL 64) 64 nullptr)].
Proof.
  destruct (receive_after_release Samples.runtime Samples.exanic_sdk
              Samples.interp0 [] 0%nat 64) as (rx & Ho & Htrace);
    [reflexivity | vm_compute; split; [discriminate | reflexivity]
    | reflexivity |].
  cbn in Ho. injection Ho as <-. exact Htrace.
Defined.

End CapsuleFacts.
